(** * YTDownloader: the download classes of [scripts/utils/downloader.py]

    A shallow embedding of [PlaylistDownloader] and [VideoDownloader]
    together with the parts of the Python runtime, of pytube and of
    PySimpleGUI that their methods touch.

    - Python integers are [Z]; Python floats are IEEE binary64 values,
      taken from the Standard Library's [SpecFloat] (plain [Z] arithmetic,
      executable, no primitive operations).
    - A method that shows a popup, updates a widget or starts a transfer
      appends to an event trace; a method that raises ends with the
      exception.  Both are carried by the small monad [Eff].
    - The file system is the finite set of paths that exist when a method
      is called. *)

From Stdlib Require Import ZArith List String Ascii.
From Stdlib Require Import Floats.SpecFloat.
From stdpp Require Import base decidable option list gmap strings pretty.

Local Open Scope Z_scope.

(* ===================================================================== *)
(** ** Python runtime *)
(* ===================================================================== *)

(** The exceptions that the modelled expressions can raise. *)
Inductive Exn : Type :=
  | AttributeError    (* attribute access on [None] *)
  | KeyError          (* [dict[k]] with [k] absent *)
  | ZeroDivisionError (* [a / 0] *)
  | OverflowError     (* [round(inf)] *)
  | ValueError.       (* [round(nan)] *)

(** What a widget shows after [update(v)]. *)
Inductive Value : Type :=
  | VInt (z : Z)
  | VStr (s : string).

Module Stream.
(** A pytube [Stream]: the attributes that the keyword filter compares
    and [filesize].  [subtype] is the container ("mp4", "webm"); the
    downloader never reads it. *)
Record t : Type := mk {
  itag : Z;
  resolution : option string;
  type : string;
  subtype : string;
  is_progressive : bool;
  abr : option string;
  filesize : Z
}.
End Stream.

(** Observable effects, in program order. *)
Inductive Event : Type :=
  | Popup (message : string) (title : option string)
      (* [sg.Popup(message, title=...)] *)
  | StreamDownload (s : Stream.t) (output_path filename : string)
      (* [stream.download(output_path=..., filename=...)], blocking; the
         callbacks that pytube fires meanwhile are the methods
         [__progress_check] and [__on_complete] below *)
  | WindowUpdate (key : string) (v : Value).
      (* [window[key].update(v)] *)

(** A computation: the events emitted so far and either the exception
    that ended it or its value. *)
Definition Eff (A : Type) : Type := (list Event * (Exn + A))%type.

Definition ret {A} (a : A) : Eff A := ([], inr a).
Definition raise {A} (e : Exn) : Eff A := ([], inl e).
Definition emit (ev : Event) : Eff unit := ([ev], inr tt).
Definition lift {A} (r : Exn + A) : Eff A := ([], r).

Definition bind {A B} (m : Eff A) (k : A -> Eff B) : Eff B :=
  match m with
  | (t, inl e) => (t, inl e)
  | (t, inr a) => let '(t', r) := k a in (t ++ t', r)
  end.

Notation "'do' x <- m ; k" := (bind m (fun x => k))
  (at level 10, x name, m at level 100, k at level 200).
Notation "'do_' m ; k" := (bind m (fun _ => k))
  (at level 10, m at level 100, k at level 200).

Definition trace {A} (m : Eff A) : list Event := fst m.
Definition outcome {A} (m : Eff A) : Exn + A := snd m.

(** The streams handed to [Stream.download], in order. *)
Definition transferred (t : list Event) : list Stream.t :=
  flat_map (fun ev => match ev with
                      | StreamDownload s _ _ => [s]
                      | _ => []
                      end) t.

(** The widgets as a finite map from key to shown value; [render] replays
    a trace on it. *)
Definition apply_event (w : gmap string Value) (ev : Event) : gmap string Value :=
  match ev with
  | WindowUpdate k v => <[k := v]> w
  | _ => w
  end.

Definition render (t : list Event) (w : gmap string Value) : gmap string Value :=
  fold_left apply_event t w.

(** [str(n)] for an [int]. *)
Definition py_str_int (n : Z) : string := pretty n.

Module PyFloat.
(** Python [float] is binary64. *)
Definition prec : Z := 53.
Definition emax : Z := 1024.

(** [float(n)]: the nearest double, ties to even. *)
Definition of_int (n : Z) : spec_float := binary_normalize prec emax n 0 false.

(** [a / b] on two [int]s.  CPython rounds the exact quotient once; for
    [|a|, |b| <= 2^53] both conversions are exact and that is the IEEE
    quotient computed here. *)
Definition truediv (a b : Z) : Exn + spec_float :=
  if b =? 0 then inl ZeroDivisionError
  else inr (SFdiv prec emax (of_int a) (of_int b)).

(** [x * k] for a [float] [x] and an [int] [k]. *)
Definition mul_int (x : spec_float) (k : Z) : spec_float :=
  SFmul prec emax x (of_int k).

(** The integer nearest to [m * 2^e], ties to even ([0 <= m]). *)
Definition nearest_even (m e : Z) : Z :=
  if 0 <=? e then m * 2 ^ e
  else
    let d := 2 ^ (- e) in
    let q := m / d in
    let r := m mod d in
    if 2 * r <? d then q
    else if d <? 2 * r then q + 1
    else if Z.even q then q else q + 1.

(** [round(x)]: an [int], ties to even, from the exact value of [x]. *)
Definition round (x : spec_float) : Exn + Z :=
  match x with
  | S754_zero _ => inr 0
  | S754_infinity _ => inl OverflowError
  | S754_nan => inl ValueError
  | S754_finite s m e => inr (cond_Zopp s (nearest_even (Z.pos m) e))
  end.

(** [str(round(x, 1))]: [x] correctly rounded to one decimal (ties to
    even on the exact value) and printed positionally, as [repr] does
    for magnitudes below [1e16]. *)
Definition str_round1 (x : spec_float) : string :=
  match x with
  | S754_zero s => (if s then "-0.0" else "0.0")%string
  | S754_infinity s => (if s then "-inf" else "inf")%string
  | S754_nan => "nan"%string
  | S754_finite s m e =>
      let t := nearest_even (10 * Z.pos m) e in
      ((if s then "-" else "") +:+ py_str_int (t / 10) +:+ "." +:+ py_str_int (t mod 10))%string
  end.
End PyFloat.

(* ===================================================================== *)
(** ** Data model *)
(* ===================================================================== *)

(** [download_option.DownloadOption]: the class is imported, not defined,
    by [downloader.py]; the four attributes are the ones its methods read,
    in the order of the positional constructor calls. *)
Record DownloadOption : Type := mkDownloadOption {
  RESOLUTION : option string;
  TYPE : string;
  PROGRESSIVE : bool;
  ABR : option string
}.

(** Dictionary keys are compared by their fields; the three instances
    below differ in them, so this agrees with comparison by identity. *)
Global Instance DownloadOption_eq_dec : EqDecision DownloadOption.
Proof. solve_decision. Defined.

Definition LD : DownloadOption := mkDownloadOption (Some "360p"%string) "video" true None.
Definition HD : DownloadOption := mkDownloadOption (Some "720p"%string) "video" true None.
Definition AUDIO : DownloadOption := mkDownloadOption None "audio" false (Some "128kbps"%string).

Module YouTube.
(** A pytube [YouTube] object: its title and its stream catalogue. *)
Record t : Type := mk {
  title : string;
  streams : list Stream.t
}.
End YouTube.

Module Playlist.
(** A pytube [Playlist]: [length] is the count that the playlist page
    reports, [videos] the items in playlist order. *)
Record t : Type := mk {
  title : string;
  length : Z;
  videos : list YouTube.t
}.
End Playlist.

(** A Python [dict] keyed by download options, in insertion order. *)
Definition dict_get {V} (k : DownloadOption) (d : list (DownloadOption * V)) : option V :=
  snd <$> List.find (fun kv => bool_decide (fst kv = k)) d.

(** [d[k]]: [KeyError] when [k] is absent. *)
Definition dict_item {V} (d : list (DownloadOption * V)) (k : DownloadOption) : Eff V :=
  match dict_get k d with
  | Some v => ret v
  | None => raise KeyError
  end.

(* ===================================================================== *)
(** ** Collaborators *)
(* ===================================================================== *)

(** pytube's [StreamQuery.filter(resolution=, type=, progressive=, abr=)]:
    the sub-catalogue, in catalogue order, of the streams that pass. *)
Class StreamQuery : Type := {
  streams_filter : option string -> string -> bool -> option string ->
                   list Stream.t -> list Stream.t
}.

(** [StreamQuery.first()]: the first stream or [None]. *)
Definition first (q : list Stream.t) : option Stream.t := head q.

(** The methods that both downloaders inherit from
    [downloader_base.YouTubeDownloader].  The two renaming methods look
    at the file system, given here as the set of existing paths. *)
Class YouTubeDownloader : Type := {
  remove_forbidden_characters : string -> string;
  rename_dir : gset string -> string -> string -> string;
  rename_file : gset string -> string -> string -> string
}.

(** The two popups. *)
Definition DOWNLOAD_DIR_POPUP : Eff unit :=
  emit (Popup "Please select a download directory" (Some "Info"%string)).
Definition RESOLUTION_UNAVAILABLE_POPUP : Eff unit :=
  emit (Popup "This resolution is resolution unavailable." (Some "Info"%string)).

(** [not s] for a [str]: only the empty string is falsy. *)
Definition py_not_str (s : string) : bool :=
  match s with
  | EmptyString => true
  | String _ _ => false
  end.

(** [len(l)] as a Python [int]. *)
Definition len {A} (l : list A) : Z := Z.of_nat (List.length l).

(* ===================================================================== *)
(** ** [class PlaylistDownloader] *)
(* ===================================================================== *)

Module PlaylistDownloader.

(** The attributes that the methods below read.  [folder] is assigned
    by [create_window] from the folder input before every call of
    [download]. *)
Record t : Type := mk {
  playlist : Playlist.t;
  select_dict : list (DownloadOption * option (list (option Stream.t)));
  folder : string
}.

Section Methods.
Context `{!StreamQuery} `{!YouTubeDownloader}.

(** One item resolved under an option: [video.streams.filter(...).first()]. *)
Definition resolve (download_option : DownloadOption) (video : YouTube.t)
  : option Stream.t :=
  first (streams_filter (RESOLUTION download_option) (TYPE download_option)
                        (PROGRESSIVE download_option) (ABR download_option)
                        (YouTube.streams video)).

(** [get_playlist]: one entry per item, [None] where nothing matched. *)
Definition get_playlist (p : Playlist.t) (download_option : DownloadOption)
  : list (option Stream.t) :=
  List.map (resolve download_option) (Playlist.videos p).

(** The dictionary that [__init__] binds to [self.select_dict]. *)
Definition build_select_dict (p : Playlist.t)
  : list (DownloadOption * option (list (option Stream.t))) :=
  let hd_list := get_playlist p HD in
  let ld_list := get_playlist p LD in
  let audio_list := get_playlist p AUDIO in
  [ (HD, if len hd_list =? Playlist.length p then Some hd_list else None);
    (LD, if len ld_list =? Playlist.length p then Some ld_list else None);
    (AUDIO, if len audio_list =? Playlist.length p then Some ld_list else None) ].

(** [sum(video.filesize for video in l)], from the accumulator [acc]. *)
Fixpoint sum_filesize (l : list (option Stream.t)) (acc : Z) : Eff Z :=
  match l with
  | [] => ret acc
  | None :: _ => raise AttributeError
  | Some video :: rest => sum_filesize rest (acc + Stream.filesize video)
  end.

Definition get_playlist_size
    (sd : list (DownloadOption * option (list (option Stream.t))))
    (download_option : DownloadOption) : Eff string :=
  do sel <- dict_item sd download_option;
  match sel with
  | None => ret "Unavailable"%string
  | Some l =>
      do total <- sum_filesize l 0;
      do x <- lift (PyFloat.truediv total 1048576);
      ret (PyFloat.str_round1 x +:+ " MB")%string
  end.

(** [__init__]: the selection dictionary, then the three size labels
    of the layout in the order HD, LD, AUDIO. *)
Definition __init__ (p : Playlist.t) : Eff t :=
  let sd := build_select_dict p in
  do_ get_playlist_size sd HD;
  do_ get_playlist_size sd LD;
  do_ get_playlist_size sd AUDIO;
  ret (mk p sd "").

Definition __download_complete : Eff unit :=
  do_ emit (WindowUpdate "-DOWNLOADPROGRESS-" (VInt 0));
  do_ emit (WindowUpdate "-COMPLETED-" (VStr ""));
  emit (Popup "Download completed" None).

(** The [for video in self.playlist.videos] loop; [download_counter]
    is the counter before the iteration. *)
Fixpoint download_loop (download_option : DownloadOption) (download_dir : string)
    (length : Z) (videos : list YouTube.t) (download_counter : Z) : Eff unit :=
  match videos with
  | [] => ret tt
  | video :: rest =>
      match resolve download_option video with
      | None => raise AttributeError
      | Some s =>
          do_ emit (StreamDownload s download_dir
                      (remove_forbidden_characters (YouTube.title video) +:+ ".mp4"));
          let download_counter := download_counter + 1 in
          do_ emit (WindowUpdate "-DOWNLOADPROGRESS-" (VInt download_counter));
          do_ emit (WindowUpdate "-COMPLETED-"
                      (VStr (py_str_int download_counter +:+ " of " +:+ py_str_int length)));
          download_loop download_option download_dir length rest download_counter
      end
  end.

Definition download (fs : gset string) (self : t) (download_option : DownloadOption)
  : Eff unit :=
  do sel <- dict_item (select_dict self) download_option;
  match sel with
  | None => RESOLUTION_UNAVAILABLE_POPUP
  | Some _ =>
      if py_not_str (folder self) then DOWNLOAD_DIR_POPUP
      else
        let download_dir :=
          rename_dir fs (folder self)
            (remove_forbidden_characters (Playlist.title (playlist self))) in
        do_ download_loop download_option download_dir
              (Playlist.length (playlist self))
              (Playlist.videos (playlist self)) 0;
        __download_complete
  end.
End Methods.
End PlaylistDownloader.

(* ===================================================================== *)
(** ** [class VideoDownloader] *)
(* ===================================================================== *)

Module VideoDownloader.

Record t : Type := mk {
  video : YouTube.t;
  select_dict : list (DownloadOption * option Stream.t);
  folder : string
}.

Section Methods.
Context `{!StreamQuery} `{!YouTubeDownloader}.

Definition get_video (v : YouTube.t) (download_option : DownloadOption)
  : option Stream.t :=
  first (streams_filter (RESOLUTION download_option) (TYPE download_option)
                        (PROGRESSIVE download_option) (ABR download_option)
                        (YouTube.streams v)).

Definition build_select_dict (v : YouTube.t)
  : list (DownloadOption * option Stream.t) :=
  [ (HD, get_video v HD); (LD, get_video v LD); (AUDIO, get_video v AUDIO) ].

Definition get_video_size (sd : list (DownloadOption * option Stream.t))
    (download_option : DownloadOption) : Eff string :=
  do sel <- dict_item sd download_option;
  match sel with
  | None => ret "Unavailable"%string
  | Some s =>
      do x <- lift (PyFloat.truediv (Stream.filesize s) 1048576);
      ret (PyFloat.str_round1 x +:+ " MB")%string
  end.

Definition __init__ (v : YouTube.t) : Eff t :=
  let sd := build_select_dict v in
  do_ get_video_size sd HD;
  do_ get_video_size sd LD;
  do_ get_video_size sd AUDIO;
  ret (mk v sd "").

Definition download (fs : gset string) (self : t) (download_option : DownloadOption)
  : Eff unit :=
  do sel <- dict_item (select_dict self) download_option;
  match sel with
  | None => RESOLUTION_UNAVAILABLE_POPUP
  | Some s =>
      if py_not_str (folder self) then DOWNLOAD_DIR_POPUP
      else
        emit (StreamDownload s (folder self)
                (rename_file fs (folder self)
                   (remove_forbidden_characters (YouTube.title (video self)))
                 +:+ ".mp4"))
  end.

(** [round(bytes_remaining / stream.filesize * 100)]. *)
Definition percent_remaining (bytes_remaining filesize : Z) : Exn + Z :=
  match PyFloat.truediv bytes_remaining filesize with
  | inl e => inl e
  | inr x => PyFloat.round (PyFloat.mul_int x 100)
  end.

Definition __progress_check (stream : Stream.t) (chunk : list Byte.byte)
    (bytes_remaining : Z) : Eff unit :=
  do r <- lift (percent_remaining bytes_remaining (Stream.filesize stream));
  do_ emit (WindowUpdate "-DOWNLOADPROGRESS-" (VInt (100 - r)));
  do r' <- lift (percent_remaining bytes_remaining (Stream.filesize stream));
  emit (WindowUpdate "-COMPLETED-" (VStr (py_str_int (100 - r') +:+ "% completed"))).

Definition __on_complete (stream : Stream.t) (file_path : option string) : Eff unit :=
  do_ emit (WindowUpdate "-DOWNLOADPROGRESS-" (VInt 0));
  do_ emit (WindowUpdate "-COMPLETED-" (VStr ""));
  emit (Popup "Download completed" None).
End Methods.
End VideoDownloader.

(* ===================================================================== *)
(** ** [downloader_base.YouTubeDownloader] *)
(* ===================================================================== *)

Module DownloaderBase.

(** The characters that no file or directory name may hold: backslash,
    slash, colon, asterisk, question mark, double quote, less-than,
    greater-than and vertical bar, by their ASCII codes. *)
Definition forbidden_characters : list ascii :=
  List.map ascii_of_nat [92; 47; 58; 42; 63; 34; 60; 62; 124]%nat.

Definition is_forbidden (c : ascii) : bool :=
  bool_decide (c ∈ forbidden_characters).

(** Modelled from the spec: [remove_forbidden_characters] lives in
    [downloader_base.py], which is not among the sources.  The sanitizer
    strips every character that is invalid in a file or directory name
    and keeps the others in order. *)
Fixpoint remove_forbidden_characters (name : string) : string :=
  match name with
  | EmptyString => EmptyString
  | String c rest =>
      if is_forbidden c then remove_forbidden_characters rest
      else String c (remove_forbidden_characters rest)
  end.

Definition join (parent name : string) : string :=
  (parent +:+ "/" +:+ name)%string.

(** The name tried at attempt [i]: the name itself, then the name with
    the numeric disambiguator [(1)], [(2)], ... appended. *)
Definition disambiguate (name : string) (i : nat) : string :=
  match i with
  | O => name
  | S _ => (name +:+ " (" +:+ pretty i +:+ ")")%string
  end.

(** The first attempt at or after [i] whose path does not exist, trying
    at most [fuel] existing paths. *)
Fixpoint first_free (fs : gset string) (cand : nat -> string) (fuel i : nat) : nat :=
  match fuel with
  | O => i
  | S fuel' =>
      if bool_decide (cand i ∈ fs) then first_free fs cand fuel' (S i) else i
  end.

(** Modelled from the spec: [rename_dir] lives in [downloader_base.py],
    which is not among the sources.  It returns [parent/name] if that
    path does not exist, else appends a disambiguator until a
    non-colliding path is found.  A search through as many attempts as
    there are existing paths always ends on a free one. *)
Definition rename_dir (fs : gset string) (parent name : string) : string :=
  let cand i := join parent (disambiguate name i) in
  cand (first_free fs cand (size fs) O).

(** Modelled from the spec: [rename_file] lives in [downloader_base.py],
    which is not among the sources.  The file name is derived the same
    way as the directory name; the caller appends the extension, so the
    path looked up is the one with [.mp4]. *)
Definition rename_file (fs : gset string) (parent name : string) : string :=
  let cand i := (join parent (disambiguate name i) +:+ ".mp4")%string in
  disambiguate name (first_free fs cand (size fs) O).

#[global] Instance base : YouTubeDownloader :=
  Build_YouTubeDownloader remove_forbidden_characters rename_dir rename_file.
End DownloaderBase.

(* ===================================================================== *)
(** ** pytube's keyword filter, for the concrete catalogues *)
(* ===================================================================== *)

Module Pytube.

(** [StreamQuery.filter] adds one predicate per keyword that is truthy:
    a keyword left at [None], [False] or the empty string constrains
    nothing.  The theorems below hold for every [StreamQuery]; this
    instance serves the concrete playlists. *)
Definition passes (resolution : option string) (type : string) (progressive : bool)
    (abr : option string) (s : Stream.t) : bool :=
  match resolution with
  | Some r => bool_decide (Stream.resolution s = Some r)
  | None => true
  end
  && (py_not_str type || bool_decide (Stream.type s = type))
  && match abr with
     | Some a => bool_decide (Stream.abr s = Some a)
     | None => true
     end
  && (negb progressive || Stream.is_progressive s).

#[global] Instance query : StreamQuery := {|
  streams_filter resolution type progressive abr q :=
    List.filter (passes resolution type progressive abr) q
|}.
End Pytube.

(* ===================================================================== *)
(** ** Concrete catalogues *)
(* ===================================================================== *)

Module Fixtures.
Local Open Scope string_scope.

(** Progressive mp4 video at 360p and 720p, mp4 and webm audio at 128kbps. *)
Definition v360 : Stream.t := Stream.mk 18 (Some "360p") "video" "mp4" true (Some "96kbps") 5242880.
Definition v720 : Stream.t := Stream.mk 22 (Some "720p") "video" "mp4" true (Some "192kbps") 15728640.
Definition a128 : Stream.t := Stream.mk 140 None "audio" "mp4" false (Some "128kbps") 3407872.
Definition a128_webm : Stream.t := Stream.mk 171 None "audio" "webm" false (Some "128kbps") 3145728.

Definition full : YouTube.t := YouTube.mk "Intro: part 1/3" [v360; v720; a128].
Definition no_hd : YouTube.t := YouTube.mk "Old clip" [v360; a128].
Definition no_audio : YouTube.t := YouTube.mk "Silent film" [v360; v720].
Definition webm_audio : YouTube.t := YouTube.mk "Song" [v360; v720; a128_webm; a128].

Definition three : Playlist.t := Playlist.mk "My <best> list" 3 [full; full; webm_audio].
Definition one_no_hd : Playlist.t := Playlist.mk "Clips" 1 [no_hd].
Definition one_no_audio : Playlist.t := Playlist.mk "Films" 1 [no_audio].
Definition mixed_audio : Playlist.t := Playlist.mk "Mixed" 2 [full; no_audio].
Definition one_full : Playlist.t := Playlist.mk "Single" 1 [full].
Definition one_webm : Playlist.t := Playlist.mk "Songs" 1 [webm_audio].

(** The page reports three items, two can be enumerated. *)
Definition partly_private : Playlist.t := Playlist.mk "Partly private" 3 [full; full].

Definition fs0 : gset string := ∅.
Definition fs_taken : gset string := {[ "/home/u/MyList"; "/home/u/MyList (1)" ]}.
End Fixtures.

(** The longest prefix of resolved entries: what a loop that stops at the
    first [None] gets through. *)
Fixpoint resolved_prefix {A} (l : list (option A)) : list A :=
  match l with
  | Some a :: rest => a :: resolved_prefix rest
  | _ => []
  end.

(** The three events of one completed playlist item: the blocking
    transfer, the bar set to the count of completed items, the counter
    text. *)
Definition item_events (s : Stream.t) (download_dir filename : string) (i n : Z)
  : list Event :=
  [ StreamDownload s download_dir filename;
    WindowUpdate "-DOWNLOADPROGRESS-" (VInt i);
    WindowUpdate "-COMPLETED-" (VStr (py_str_int i +:+ " of " +:+ py_str_int n)) ].

(** The events that end a playlist download. *)
Definition completion_events : list Event :=
  [ WindowUpdate "-DOWNLOADPROGRESS-" (VInt 0);
    WindowUpdate "-COMPLETED-" (VStr "");
    Popup "Download completed" None ].

(** The values sent to the widget [key], in order. *)
Definition shown (key : string) (t : list Event) : list Value :=
  flat_map (fun ev => match ev with
                      | WindowUpdate k v => if String.eqb k key then [v] else []
                      | _ => []
                      end) t.

(** The characters of a string. *)
Definition chars (s : string) : list ascii := list_ascii_of_string s.

(* ===================================================================== *)
(** ** The event loops: [create_window] *)
(* ===================================================================== *)

(** Effects of an event loop: those of [download], a page opened in the
    browser, the window closed. *)
Inductive UIEvent : Type :=
| Core (ev : Event)
| WebOpen (url : string)      (* [webbrowser.open(url)] *)
| WindowClose.                (* [self.download_window.close()] *)

Definition UI (A : Type) : Type := (list UIEvent * (Exn + A))%type.

Definition ui_ret {A} (a : A) : UI A := ([], inr a).
Definition ui_raise {A} (e : Exn) : UI A := ([], inl e).
Definition ui_emit (ev : UIEvent) : UI unit := ([ev], inr tt).

Definition ui_bind {A B} (m : UI A) (k : A -> UI B) : UI B :=
  match m with
  | (t, inl e) => (t, inl e)
  | (t, inr a) => let '(t', r) := k a in (t ++ t', r)
  end.

(** A method of the downloader run inside the loop. *)
Definition run {A} (m : Eff A) : UI A := (Core <$> fst m, snd m).

(** [if cond: action]. *)
Definition ui_when (cond : bool) (action : UI unit) : UI unit :=
  if cond then action else ui_ret tt.

Notation "'ui_' m ; k" := (ui_bind m (fun _ => k))
  (at level 10, m at level 100, k at level 200).

(** One turn of a loop: what [window.read()] returns, and the paths that
    exist while the turn is handled.  The event [None] is
    [sg.WIN_CLOSED]; the values are [None] once the window is gone. *)
Record Turn : Type := mkTurn {
  event : option string;
  values : option (gmap string string);
  paths : gset string
}.

(** [event == key]. *)
Definition event_is (e : option string) (key : string) : bool :=
  match e with
  | Some k => String.eqb k key
  | None => false
  end.

(** How a loop over finitely many turns ends: still blocked in
    [window.read()], or left through [break] with the window closed. *)
Inductive Loop (St : Type) : Type :=
| Waiting (self : St)
| Closed (self : St).
Arguments Waiting {St} self.
Arguments Closed {St} self.

Module PlaylistWindow.

(** [self.url] and [self.playlist.owner_url]. *)
Record Links : Type := mkLinks {
  url : string;
  owner_url : string
}.

(** [self.folder = f]. *)
Definition set_folder (self : PlaylistDownloader.t) (f : string) : PlaylistDownloader.t :=
  PlaylistDownloader.mk (PlaylistDownloader.playlist self)
                        (PlaylistDownloader.select_dict self) f.

Section Methods.
Context `{!StreamQuery} `{!YouTubeDownloader}.

(** The six [if event == ...] statements of one iteration. *)
Definition dispatch (links : Links) (self : PlaylistDownloader.t)
    (e : option string) (fs : gset string) : UI unit :=
  ui_ ui_when (event_is e "-URL-") (ui_emit (WebOpen (url links)));
  ui_ ui_when (event_is e "-OWNER-") (ui_emit (WebOpen (owner_url links)));
  ui_ ui_when (event_is e "-HD-") (run (PlaylistDownloader.download fs self HD));
  ui_ ui_when (event_is e "-LD-") (run (PlaylistDownloader.download fs self LD));
  ui_when (event_is e "-AUDIOALL-") (run (PlaylistDownloader.download fs self AUDIO)).

(** [create_window] over the turns that the window delivers. *)
Fixpoint create_window (links : Links) (self : PlaylistDownloader.t)
    (turns : list Turn) : UI (Loop PlaylistDownloader.t) :=
  match turns with
  | [] => ui_ret (Waiting self)
  | t :: rest =>
      match values t with
      | None =>
          (* [TypeError] on [values["-FOLDER-"]], caught: [break] *)
          ui_ ui_emit WindowClose; ui_ret (Closed self)
      | Some vs =>
          match vs !! "-FOLDER-"%string with
          | None => ui_raise KeyError
          | Some f =>
              let self := set_folder self f in
              match event t with
              | None => ui_ ui_emit WindowClose; ui_ret (Closed self)
              | Some _ =>
                  ui_ dispatch links self (event t) (paths t);
                  create_window links self rest
              end
          end
      end
  end.
End Methods.
End PlaylistWindow.

Module VideoWindow.

(** [self.url], [self.video.channel_url] and [self.video.thumbnail_url]. *)
Record Links : Type := mkLinks {
  url : string;
  channel_url : string;
  thumbnail_url : string
}.

Definition set_folder (self : VideoDownloader.t) (f : string) : VideoDownloader.t :=
  VideoDownloader.mk (VideoDownloader.video self) (VideoDownloader.select_dict self) f.

Section Methods.
Context `{!StreamQuery} `{!YouTubeDownloader}.

Definition dispatch (links : Links) (self : VideoDownloader.t)
    (e : option string) (fs : gset string) : UI unit :=
  ui_ ui_when (event_is e "-URL-") (ui_emit (WebOpen (url links)));
  ui_ ui_when (event_is e "-CREATOR-") (ui_emit (WebOpen (channel_url links)));
  ui_ ui_when (event_is e "-THUMB-") (ui_emit (WebOpen (thumbnail_url links)));
  ui_ ui_when (event_is e "-HD-") (run (VideoDownloader.download fs self HD));
  ui_ ui_when (event_is e "-LD-") (run (VideoDownloader.download fs self LD));
  ui_when (event_is e "-AUDIO-") (run (VideoDownloader.download fs self AUDIO)).

Fixpoint create_window (links : Links) (self : VideoDownloader.t)
    (turns : list Turn) : UI (Loop VideoDownloader.t) :=
  match turns with
  | [] => ui_ret (Waiting self)
  | t :: rest =>
      match values t with
      | None => ui_ ui_emit WindowClose; ui_ret (Closed self)
      | Some vs =>
          match vs !! "-FOLDER-"%string with
          | None => ui_raise KeyError
          | Some f =>
              let self := set_folder self f in
              match event t with
              | None => ui_ ui_emit WindowClose; ui_ret (Closed self)
              | Some _ =>
                  ui_ dispatch links self (event t) (paths t);
                  create_window links self rest
              end
          end
      end
  end.
End Methods.
End VideoWindow.

Module Sessions.

(** A tier that is not among the three. *)
Definition FULL_HD : DownloadOption :=
  mkDownloadOption (Some "1080p"%string) "video" true None.

Definition playlist_links : PlaylistWindow.Links :=
  PlaylistWindow.mkLinks "https://youtube.com/playlist?list=PL1" "https://youtube.com/@owner".

Definition video_links : VideoWindow.Links :=
  VideoWindow.mkLinks "https://youtube.com/watch?v=1" "https://youtube.com/@creator"
    "https://i.ytimg.com/vi/1/default.jpg".

(** The values of a window whose folder input holds [f]. *)
Definition folder_values (f : string) : option (gmap string string) :=
  Some {[ "-FOLDER-"%string := f ]}.

(** The folder is typed, the 360p button is clicked, the window is
    closed. *)
Definition click_ld_then_close : list Turn :=
  [ mkTurn (Some "-FOLDER-"%string) (folder_values "/home/u") ∅;
    mkTurn (Some "-LD-"%string) (folder_values "/home/u") ∅;
    mkTurn None None ∅ ].

Definition opened_video : VideoDownloader.t :=
  VideoDownloader.mk Fixtures.full (VideoDownloader.build_select_dict Fixtures.full) "".

Definition opened_playlist : PlaylistDownloader.t :=
  PlaylistDownloader.mk Fixtures.three (PlaylistDownloader.build_select_dict Fixtures.three) "".

End Sessions.


(** The exception, if any, that ended a loop. *)
Definition raised {A} (m : UI A) : option Exn :=
  match snd m with
  | inl e => Some e
  | inr _ => None
  end.

(** The option, if any, that an event key downloads in the playlist
    window and in the video window. *)
Definition playlist_button (key : string) : option DownloadOption :=
  if String.eqb key "-HD-" then Some HD
  else if String.eqb key "-LD-" then Some LD
  else if String.eqb key "-AUDIOALL-" then Some AUDIO
  else None.

Definition video_button (key : string) : option DownloadOption :=
  if String.eqb key "-HD-" then Some HD
  else if String.eqb key "-LD-" then Some LD
  else if String.eqb key "-AUDIO-" then Some AUDIO
  else None.

(* ===================================================================== *)
(** * Properties *)
(* ===================================================================== *)

(** ** The effect monad *)

Arguments bind : simpl never.
Arguments emit : simpl never.

Lemma bind_ret_l {A B} (a : A) (k : A -> Eff B) : bind (ret a) k = k a.
Proof. unfold bind, ret. destruct (k a) as [t r]. reflexivity. Qed.

Lemma bind_raise {A B} (e : Exn) (k : A -> Eff B) : bind (raise e) k = raise e.
Proof. reflexivity. Qed.

Lemma bind_emit {B} (ev : Event) (k : unit -> Eff B) :
  bind (emit ev) k = (ev :: trace (k tt), outcome (k tt)).
Proof. unfold bind, emit, trace, outcome. destruct (k tt) as [t r]. reflexivity. Qed.

Lemma trace_bind {A B} (m : Eff A) (k : A -> Eff B) :
  trace (bind m k) =
  trace m ++ match outcome m with inr a => trace (k a) | inl _ => [] end.
Proof.
  destruct m as [t [e | a]]; unfold bind, trace, outcome; simpl.
  - symmetry. apply app_nil_r.
  - destruct (k a) as [t' r]. reflexivity.
Qed.

Lemma transferred_app (t1 t2 : list Event) :
  transferred (t1 ++ t2) = transferred t1 ++ transferred t2.
Proof. unfold transferred. apply flat_map_app. Qed.

(** ** The selection dictionary *)

Lemma dict_get_HD {V} (a b c : V) : dict_get HD [(HD, a); (LD, b); (AUDIO, c)] = Some a.
Proof. reflexivity. Qed.

Lemma dict_get_LD {V} (a b c : V) : dict_get LD [(HD, a); (LD, b); (AUDIO, c)] = Some b.
Proof. reflexivity. Qed.

Lemma dict_get_AUDIO {V} (a b c : V) : dict_get AUDIO [(HD, a); (LD, b); (AUDIO, c)] = Some c.
Proof. reflexivity. Qed.

Section Selection.
Context `{!StreamQuery}.

Lemma len_get_playlist (p : Playlist.t) (o : DownloadOption) :
  len (PlaylistDownloader.get_playlist p o) = len (Playlist.videos p).
Proof. unfold len, PlaylistDownloader.get_playlist. by rewrite length_map. Qed.

(** X1: What the length test of [__init__] decides: a tier is stored as a
    list exactly when the reported length is the number of items,
    whatever the catalogues hold. *)
Lemma select_dict_available_iff_length (p : Playlist.t) (o : DownloadOption) :
  In o [HD; LD; AUDIO] ->
  (exists l, dict_get o (PlaylistDownloader.build_select_dict p) = Some (Some l))
  <-> Playlist.length p = len (Playlist.videos p).
Proof.
  intros Ho. unfold PlaylistDownloader.build_select_dict.
  rewrite !len_get_playlist.
  destruct (Z.eqb_spec (len (Playlist.videos p)) (Playlist.length p)) as [E | E];
    simpl in Ho; destruct Ho as [<- | [<- | [<- | []]]];
    rewrite ?dict_get_HD, ?dict_get_LD, ?dict_get_AUDIO;
    split; try (intros [l Hl]; congruence); try (intros; eauto); congruence.
Qed.

(** The stored AUDIO entry, when present, is the list resolved under LD. *)
Lemma select_dict_audio_is_ld_list (p : Playlist.t) (l : list (option Stream.t)) :
  dict_get AUDIO (PlaylistDownloader.build_select_dict p) = Some (Some l) ->
  l = PlaylistDownloader.get_playlist p LD.
Proof.
  unfold PlaylistDownloader.build_select_dict. rewrite !len_get_playlist, dict_get_AUDIO.
  destruct (len (Playlist.videos p) =? Playlist.length p); congruence.
Qed.
End Selection.

(** C1 (as the code behaves): a tier is stored as available although an
    item of the playlist does not resolve under it.  The one-item
    playlist [one_no_audio] has no audio stream, yet [__init__] returns
    normally with a list stored for AUDIO; the one-item playlist
    [one_no_hd] has no 720p stream, yet the entry stored for HD is the
    list [[None]], not [None].  The length test compares the length of a
    list that has one entry per item, resolved or not. *)
Theorem select_dict_available_despite_unresolved_item :
  PlaylistDownloader.resolve AUDIO Fixtures.no_audio = None /\
  (exists d, PlaylistDownloader.__init__ Fixtures.one_no_audio = ([], inr d) /\
     dict_get AUDIO (PlaylistDownloader.select_dict d) = Some (Some [Some Fixtures.v360])) /\
  PlaylistDownloader.resolve HD Fixtures.no_hd = None /\
  dict_get HD (PlaylistDownloader.build_select_dict Fixtures.one_no_hd) = Some (Some [None]).
Proof.
  split; [reflexivity |]. split; [| split; reflexivity].
  eexists. split; [vm_compute; reflexivity | reflexivity].
Qed.

(** C2 (as the code behaves): for the one-item playlist [one_full] the
    item resolves under AUDIO to the 128kbps audio stream, but the entry
    stored for AUDIO is the list resolved under LD, the 360p video
    stream. *)
Theorem select_dict_audio_entry_holds_ld_streams :
  PlaylistDownloader.get_playlist Fixtures.one_full AUDIO = [Some Fixtures.a128] /\
  PlaylistDownloader.get_playlist Fixtures.one_full LD = [Some Fixtures.v360] /\
  dict_get AUDIO (PlaylistDownloader.build_select_dict Fixtures.one_full)
    = Some (Some [Some Fixtures.v360]).
Proof. repeat split; reflexivity. Qed.

(** ** The size labels *)

Section Sizes.

Lemma get_video_size_unavailable sd (o : DownloadOption) :
  dict_get o sd = Some None ->
  VideoDownloader.get_video_size sd o = ret "Unavailable"%string.
Proof. intros Hsel. unfold VideoDownloader.get_video_size, dict_item. by rewrite Hsel. Qed.

Lemma get_video_size_resolved sd (o : DownloadOption) (s : Stream.t) :
  dict_get o sd = Some (Some s) ->
  VideoDownloader.get_video_size sd o
  = ret (PyFloat.str_round1
           (SFdiv PyFloat.prec PyFloat.emax
              (PyFloat.of_int (Stream.filesize s)) (PyFloat.of_int 1048576))
         +:+ " MB")%string.
Proof. intros Hsel. unfold VideoDownloader.get_video_size, dict_item. by rewrite Hsel. Qed.

Lemma get_playlist_size_unavailable sd (o : DownloadOption) :
  dict_get o sd = Some None ->
  PlaylistDownloader.get_playlist_size sd o = ret "Unavailable"%string.
Proof. intros Hsel. unfold PlaylistDownloader.get_playlist_size, dict_item. by rewrite Hsel. Qed.

Lemma sum_filesize_resolved (ss : list Stream.t) (acc : Z) :
  PlaylistDownloader.sum_filesize (Some <$> ss) acc
  = ret (acc + foldr Z.add 0 (Stream.filesize <$> ss)).
Proof.
  revert acc. induction ss as [| s ss IH]; intros acc; simpl.
  - by rewrite Z.add_0_r.
  - by rewrite IH, Z.add_assoc.
Qed.

Lemma sum_filesize_unresolved (l : list (option Stream.t)) (acc : Z) :
  In None l -> PlaylistDownloader.sum_filesize l acc = raise AttributeError.
Proof.
  revert acc. induction l as [| [s |] l IH]; intros acc Hin; simpl.
  - destruct Hin.
  - apply IH. destruct Hin as [H | H]; [discriminate | exact H].
  - reflexivity.
Qed.

Lemma get_playlist_size_resolved sd (o : DownloadOption) (ss : list Stream.t) :
  dict_get o sd = Some (Some (Some <$> ss)) ->
  PlaylistDownloader.get_playlist_size sd o
  = ret (PyFloat.str_round1
           (SFdiv PyFloat.prec PyFloat.emax
              (PyFloat.of_int (foldr Z.add 0 (Stream.filesize <$> ss)))
              (PyFloat.of_int 1048576))
         +:+ " MB")%string.
Proof.
  intros Hsel. unfold PlaylistDownloader.get_playlist_size, dict_item. rewrite Hsel.
  rewrite bind_ret_l, sum_filesize_resolved, bind_ret_l. reflexivity.
Qed.

Lemma get_playlist_size_unresolved sd (o : DownloadOption) l :
  dict_get o sd = Some (Some l) -> In None l ->
  PlaylistDownloader.get_playlist_size sd o = raise AttributeError.
Proof.
  intros Hsel Hin. unfold PlaylistDownloader.get_playlist_size, dict_item. rewrite Hsel.
  rewrite bind_ret_l, sum_filesize_unresolved by exact Hin. reflexivity.
Qed.
End Sizes.

Example get_video_size_of_v360 :
  VideoDownloader.get_video_size (VideoDownloader.build_select_dict Fixtures.full) LD
  = ret "5.0 MB"%string.
Proof. vm_compute. reflexivity. Qed.

Example get_playlist_size_of_three :
  PlaylistDownloader.get_playlist_size (PlaylistDownloader.build_select_dict Fixtures.three) HD
  = ret "45.0 MB"%string.
Proof. vm_compute. reflexivity. Qed.

(** C4 (as the code behaves): the size label of a stored selection that
    is not [None] is not always a string.  For the one-item playlist
    [one_no_hd] the entry stored for HD is [[None]], and
    [get_playlist_size] raises [AttributeError] on the item's [filesize];
    so does [__init__], which computes the label. *)
Theorem get_playlist_size_raises_on_unresolved_item :
  dict_get HD (PlaylistDownloader.build_select_dict Fixtures.one_no_hd) = Some (Some [None]) /\
  PlaylistDownloader.get_playlist_size
    (PlaylistDownloader.build_select_dict Fixtures.one_no_hd) HD = ([], inl AttributeError) /\
  PlaylistDownloader.__init__ Fixtures.one_no_hd = ([], inl AttributeError).
Proof. repeat split; reflexivity. Qed.

(** ** [download] *)

Section Downloads.
Context `{SQ : !StreamQuery} `{YD : !YouTubeDownloader}.

(** When every remaining item resolves, the loop runs to its end and
    emits the three events of each item, counting on from [k]. *)
Lemma download_loop_resolved o dir n (videos : list YouTube.t) (ss : list Stream.t) (k : Z) :
  List.map (PlaylistDownloader.resolve o) videos = Some <$> ss ->
  PlaylistDownloader.download_loop o dir n videos k
  = (concat (imap (fun i vs =>
                     item_events (snd vs) dir
                       (remove_forbidden_characters (YouTube.title (fst vs)) +:+ ".mp4")
                       (k + Z.of_nat (S i)) n)
                  (zip videos ss)),
     inr tt).
Proof.
  revert ss k. induction videos as [| v videos IH]; intros ss k Hres.
  - reflexivity.
  - destruct ss as [| s ss]; [discriminate |].
    simpl in Hres. injection Hres as Hv Hrest.
    change (zip (v :: videos) (s :: ss)) with ((v, s) :: zip videos ss).
    rewrite imap_cons. cbn [concat PlaylistDownloader.download_loop].
    rewrite Hv, !bind_emit, (IH ss (k + 1) Hrest).
    cbn [trace outcome fst snd item_events app].
    replace (k + Z.of_nat 1) with (k + 1) by lia.
    do 5 f_equal. apply imap_ext. intros i [v' s'] _. cbn [compose fst snd].
    f_equal. lia.
Qed.

(** The loop hands over exactly the streams that resolve, up to the
    first item that does not. *)
Lemma download_loop_transferred o dir n (videos : list YouTube.t) (k : Z) :
  transferred (trace (PlaylistDownloader.download_loop o dir n videos k))
  = resolved_prefix (List.map (PlaylistDownloader.resolve o) videos).
Proof.
  revert k. induction videos as [| v videos IH]; intros k; simpl.
  - reflexivity.
  - destruct (PlaylistDownloader.resolve o v) as [s |]; [| reflexivity].
    rewrite !bind_emit. simpl. f_equal. apply IH.
Qed.

(** Every transfer of the loop writes an item's stream, resolved under
    the option, to the item's sanitized title followed by [.mp4]. *)
Lemma download_loop_filenames o dir n (videos : list YouTube.t) (k : Z) s dir' fn :
  In (StreamDownload s dir' fn) (trace (PlaylistDownloader.download_loop o dir n videos k)) ->
  exists v, In v videos /\ PlaylistDownloader.resolve o v = Some s /\
            fn = (remove_forbidden_characters (YouTube.title v) +:+ ".mp4")%string.
Proof.
  revert k. induction videos as [| v videos IH]; intros k; simpl.
  - intros [].
  - destruct (PlaylistDownloader.resolve o v) as [s0 |] eqn:Hv; [| intros []].
    rewrite !bind_emit. simpl.
    intros [Heq | [Heq | [Heq | Hin]]]; try discriminate.
    + injection Heq as -> _ <-. exists v. auto.
    + destruct (IH _ Hin) as (v' & Hv' & Hr & Hf). exists v'. auto.
Qed.

(** C3: [download] checks its two preconditions in order before any
    transfer, in both classes.  If the selection stored for the option
    is [None], the only effect is the resolution-unavailable popup,
    whatever the folder; otherwise, if the folder is empty, the only
    effect is the download-directory popup.  No transfer is started
    and nothing is raised in either case. *)
Theorem download_checks_preconditions_in_order (fs : gset string) (o : DownloadOption) :
  (forall d : PlaylistDownloader.t,
      dict_get o (PlaylistDownloader.select_dict d) = Some None ->
      PlaylistDownloader.download fs d o
      = ([Popup "This resolution is resolution unavailable." (Some "Info"%string)], inr tt)) /\
  (forall (d : PlaylistDownloader.t) l,
      dict_get o (PlaylistDownloader.select_dict d) = Some (Some l) ->
      PlaylistDownloader.folder d = ""%string ->
      PlaylistDownloader.download fs d o
      = ([Popup "Please select a download directory" (Some "Info"%string)], inr tt)) /\
  (forall d : VideoDownloader.t,
      dict_get o (VideoDownloader.select_dict d) = Some None ->
      VideoDownloader.download fs d o
      = ([Popup "This resolution is resolution unavailable." (Some "Info"%string)], inr tt)) /\
  (forall (d : VideoDownloader.t) s,
      dict_get o (VideoDownloader.select_dict d) = Some (Some s) ->
      VideoDownloader.folder d = ""%string ->
      VideoDownloader.download fs d o
      = ([Popup "Please select a download directory" (Some "Info"%string)], inr tt)).
Proof.
  repeat split.
  - intros d Hsel. unfold PlaylistDownloader.download, dict_item. by rewrite Hsel.
  - intros d l Hsel Hf. unfold PlaylistDownloader.download, dict_item.
    by rewrite Hsel, Hf.
  - intros d Hsel. unfold VideoDownloader.download, dict_item. by rewrite Hsel.
  - intros d s Hsel Hf. unfold VideoDownloader.download, dict_item.
    by rewrite Hsel, Hf.
Qed.

(** Past the two checks, a playlist download is the loop followed by
    the completion events. *)
Lemma download_past_checks fs (d : PlaylistDownloader.t) o l :
  dict_get o (PlaylistDownloader.select_dict d) = Some (Some l) ->
  PlaylistDownloader.folder d <> ""%string ->
  PlaylistDownloader.download fs d o
  = bind (PlaylistDownloader.download_loop o
            (rename_dir fs (PlaylistDownloader.folder d)
               (remove_forbidden_characters (Playlist.title (PlaylistDownloader.playlist d))))
            (Playlist.length (PlaylistDownloader.playlist d))
            (Playlist.videos (PlaylistDownloader.playlist d)) 0)
         (fun _ => PlaylistDownloader.__download_complete).
Proof.
  intros Hsel Hf. unfold PlaylistDownloader.download, dict_item. rewrite Hsel.
  rewrite bind_ret_l. destruct (PlaylistDownloader.folder d); [congruence | reflexivity].
Qed.

(** With every remaining item resolved, the loop sets the bar to
    [k+1, k+2, ...] and the counter text to [k+1 of n, k+2 of n, ...],
    one value per item. *)
Lemma download_loop_shown o dir n (videos : list YouTube.t) (ss : list Stream.t) (k : Z) :
  List.map (PlaylistDownloader.resolve o) videos = Some <$> ss ->
  shown "-DOWNLOADPROGRESS-" (trace (PlaylistDownloader.download_loop o dir n videos k))
  = VInt <$> seqZ (k + 1) (len videos) /\
  shown "-COMPLETED-" (trace (PlaylistDownloader.download_loop o dir n videos k))
  = (fun i => VStr (py_str_int i +:+ " of " +:+ py_str_int n)) <$> seqZ (k + 1) (len videos).
Proof.
  revert ss k. induction videos as [| v videos IH]; intros ss k Hres.
  - split; reflexivity.
  - destruct ss as [| s ss]; [discriminate |].
    simpl in Hres. injection Hres as Hv Hrest.
    destruct (IH ss (k + 1) Hrest) as [IHbar IHtext].
    assert (seqZ (k + 1) (len (v :: videos))
            = (k + 1) :: seqZ (k + 1 + 1) (len videos)) as ->.
    { rewrite seqZ_cons by (unfold len; simpl; lia).
      f_equal. f_equal; unfold len; simpl; lia. }
    cbn [PlaylistDownloader.download_loop]. rewrite Hv, !bind_emit.
    cbn [trace fst]. split.
    + rewrite fmap_cons, <- IHbar. reflexivity.
    + rewrite fmap_cons, <- IHtext. reflexivity.
Qed.

Lemma shown_app key (t1 t2 : list Event) :
  shown key (t1 ++ t2) = shown key t1 ++ shown key t2.
Proof. unfold shown. apply flat_map_app. Qed.

(** C6: a playlist download whose tier is stored as available and
    whose [n] items all resolve transfers the items in playlist order,
    one blocking transfer after the other; after the [i]-th transfer
    the bar is set to [i] and the counter text to [i of n], for
    [i = 1, ..., n]; the completion events follow.  So the bar takes
    the values [1, ..., n] (then the reset to [0]), the counter text
    the values [1 of n, ..., n of n] (then the reset to the empty
    text), and the streams transferred are those of the items, in
    order. *)
Theorem playlist_download_reports_each_item
    (fs : gset string) (d : PlaylistDownloader.t) (o : DownloadOption)
    (l : list (option Stream.t)) (ss : list Stream.t) :
  dict_get o (PlaylistDownloader.select_dict d) = Some (Some l) ->
  PlaylistDownloader.folder d <> ""%string ->
  Playlist.length (PlaylistDownloader.playlist d)
    = len (Playlist.videos (PlaylistDownloader.playlist d)) ->
  PlaylistDownloader.get_playlist (PlaylistDownloader.playlist d) o = Some <$> ss ->
  let n := len (Playlist.videos (PlaylistDownloader.playlist d)) in
  let download_dir :=
    rename_dir fs (PlaylistDownloader.folder d)
      (remove_forbidden_characters (Playlist.title (PlaylistDownloader.playlist d))) in
  PlaylistDownloader.download fs d o
  = (concat (imap (fun i vs =>
                     item_events (snd vs) download_dir
                       (remove_forbidden_characters (YouTube.title (fst vs)) +:+ ".mp4")
                       (Z.of_nat (S i)) n)
                  (zip (Playlist.videos (PlaylistDownloader.playlist d)) ss))
     ++ completion_events,
     inr tt) /\
  shown "-DOWNLOADPROGRESS-" (trace (PlaylistDownloader.download fs d o))
  = (VInt <$> seqZ 1 n) ++ [VInt 0] /\
  shown "-COMPLETED-" (trace (PlaylistDownloader.download fs d o))
  = ((fun i => VStr (py_str_int i +:+ " of " +:+ py_str_int n)) <$> seqZ 1 n)
    ++ [VStr ""] /\
  transferred (trace (PlaylistDownloader.download fs d o)) = ss.
Proof.
  intros Hsel Hf Hlen Hres n download_dir.
  rewrite (download_past_checks fs d o l Hsel Hf).
  unfold PlaylistDownloader.get_playlist in Hres.
  fold download_dir. split; [| split; [| split]].
  - rewrite (download_loop_resolved o _ _ _ ss 0 Hres), Hlen. reflexivity.
  - rewrite trace_bind, shown_app.
    rewrite (proj1 (download_loop_shown o download_dir _ _ ss 0 Hres)).
    rewrite (download_loop_resolved o _ _ _ ss 0 Hres). reflexivity.
  - rewrite trace_bind, shown_app.
    rewrite (proj2 (download_loop_shown o download_dir _ _ ss 0 Hres)).
    rewrite (download_loop_resolved o _ _ _ ss 0 Hres), Hlen. reflexivity.
  - rewrite trace_bind, transferred_app, download_loop_transferred, Hres.
    rewrite (download_loop_resolved o _ _ _ ss 0 Hres). cbn.
    rewrite app_nil_r. clear. induction ss as [| s ss IH]; [reflexivity |].
    cbn. f_equal. exact IH.
Qed.

(** C10: past the availability gate, [download] never reads the stored
    selection.  Two downloaders over the same playlist and folder
    whose stored entries for the option are both lists, whatever the
    lists hold, behave identically; and the streams transferred are
    the first matches of the option's filter on each item's catalogue,
    in playlist order, up to the first item without a match. *)
Theorem download_ignores_stored_selection
    (fs : gset string) (d1 d2 : PlaylistDownloader.t) (o : DownloadOption)
    (l1 l2 : list (option Stream.t)) :
  PlaylistDownloader.playlist d1 = PlaylistDownloader.playlist d2 ->
  PlaylistDownloader.folder d1 = PlaylistDownloader.folder d2 ->
  dict_get o (PlaylistDownloader.select_dict d1) = Some (Some l1) ->
  dict_get o (PlaylistDownloader.select_dict d2) = Some (Some l2) ->
  PlaylistDownloader.download fs d1 o = PlaylistDownloader.download fs d2 o /\
  (PlaylistDownloader.folder d1 <> ""%string ->
   transferred (trace (PlaylistDownloader.download fs d1 o))
   = resolved_prefix
       (List.map (fun video =>
                    first (streams_filter (RESOLUTION o) (TYPE o) (PROGRESSIVE o) (ABR o)
                                          (YouTube.streams video)))
                 (Playlist.videos (PlaylistDownloader.playlist d1)))).
Proof.
  intros Hp Hf H1 H2. split.
  - unfold PlaylistDownloader.download, dict_item. by rewrite H1, H2, Hp, Hf.
  - intros Hne. rewrite (download_past_checks fs d1 o l1 H1 Hne).
    rewrite trace_bind, transferred_app, download_loop_transferred.
    match goal with |- _ ++ ?t = _ => assert (t = []) as -> end.
    { destruct (outcome _); reflexivity. }
    apply app_nil_r.
Qed.

(** C8 (amended): every file that [download] writes is named by the
    sanitized title followed by the fixed extension [.mp4], whatever the
    option and whatever the container of the transferred stream: for a
    playlist item the sanitized title of the item, for a single video
    the sanitized title passed through [rename_file]. *)
Theorem download_filename_has_fixed_mp4_extension
    (fs : gset string) (o : DownloadOption) (s : Stream.t) (dir fn : string) :
  (forall d : PlaylistDownloader.t,
      In (StreamDownload s dir fn) (trace (PlaylistDownloader.download fs d o)) ->
      exists v, In v (Playlist.videos (PlaylistDownloader.playlist d)) /\
                PlaylistDownloader.resolve o v = Some s /\
                fn = (remove_forbidden_characters (YouTube.title v) +:+ ".mp4")%string) /\
  (forall d : VideoDownloader.t,
      In (StreamDownload s dir fn) (trace (VideoDownloader.download fs d o)) ->
      dict_get o (VideoDownloader.select_dict d) = Some (Some s) /\
      fn = (rename_file fs (VideoDownloader.folder d)
              (remove_forbidden_characters (YouTube.title (VideoDownloader.video d)))
            +:+ ".mp4")%string).
Proof.
  split.
  - intros d. unfold PlaylistDownloader.download, dict_item.
    destruct (dict_get o (PlaylistDownloader.select_dict d)) as [[l |] |];
      [| simpl; intros [Heq | []]; discriminate | intros []].
    rewrite bind_ret_l.
    destruct (py_not_str (PlaylistDownloader.folder d));
      [simpl; intros [Heq | []]; discriminate |].
    rewrite trace_bind. intros Hin. apply in_app_or in Hin as [Hin | Hin].
    + eapply download_loop_filenames. exact Hin.
    + destruct (outcome _); [destruct Hin |].
      simpl in Hin. destruct Hin as [Heq | [Heq | [Heq | []]]]; discriminate.
  - intros d. unfold VideoDownloader.download, dict_item.
    destruct (dict_get o (VideoDownloader.select_dict d)) as [[s0 |] |];
      [| simpl; intros [Heq | []]; discriminate | intros []].
    rewrite bind_ret_l.
    destruct (py_not_str (VideoDownloader.folder d));
      simpl; intros [Heq | []]; [discriminate |].
    injection Heq as -> _ <-. split; reflexivity.
Qed.
End Downloads.

(** ** The progress callback *)

Lemma truediv_defined (a b : Z) :
  b <> 0 -> exists x, PyFloat.truediv a b = inr x.
Proof.
  intros Hb. unfold PyFloat.truediv.
  destruct (Z.eqb_spec b 0); [contradiction | eauto].
Qed.

Lemma truediv_by_zero (a : Z) : PyFloat.truediv a 0 = inl ZeroDivisionError.
Proof. reflexivity. Qed.

(** C7: a firing of the progress callback with [bytes_remaining] on a
    stream of size [filesize] sets the progress bar to
    [100 - round(bytes_remaining / filesize * 100)] and the text to that
    number followed by [% completed], where [/] and [*] are the float
    operations and [round] rounds to the nearest integer. *)
Theorem progress_check_shows_percent_complete
    (stream : Stream.t) (chunk : list Byte.byte) (bytes_remaining : Z)
    (x : spec_float) (r : Z) (w : gmap string Value) :
  PyFloat.truediv bytes_remaining (Stream.filesize stream) = inr x ->
  PyFloat.round (PyFloat.mul_int x 100) = inr r ->
  VideoDownloader.__progress_check stream chunk bytes_remaining
  = ([ WindowUpdate "-DOWNLOADPROGRESS-" (VInt (100 - r));
       WindowUpdate "-COMPLETED-" (VStr (py_str_int (100 - r) +:+ "% completed")) ],
     inr tt) /\
  render (trace (VideoDownloader.__progress_check stream chunk bytes_remaining)) w
    !! "-DOWNLOADPROGRESS-"%string = Some (VInt (100 - r)) /\
  render (trace (VideoDownloader.__progress_check stream chunk bytes_remaining)) w
    !! "-COMPLETED-"%string = Some (VStr (py_str_int (100 - r) +:+ "% completed")).
Proof.
  intros Hdiv Hround.
  assert (VideoDownloader.__progress_check stream chunk bytes_remaining
          = ([ WindowUpdate "-DOWNLOADPROGRESS-" (VInt (100 - r));
               WindowUpdate "-COMPLETED-" (VStr (py_str_int (100 - r) +:+ "% completed")) ],
             inr tt)) as Hrun.
  { unfold VideoDownloader.__progress_check, VideoDownloader.percent_remaining, lift.
    rewrite Hdiv, Hround. reflexivity. }
  rewrite Hrun. split; [reflexivity |]. unfold render, trace. simpl. split.
  - rewrite lookup_insert_ne by discriminate. apply lookup_insert_eq.
  - apply lookup_insert_eq.
Qed.

Example progress_check_at_23_of_40 :
  VideoDownloader.__progress_check (Stream.mk 18 None "video" "mp4" true None 40) [] 23
  = ([ WindowUpdate "-DOWNLOADPROGRESS-" (VInt 43);
       WindowUpdate "-COMPLETED-" (VStr "43% completed") ], inr tt).
Proof. vm_compute. reflexivity. Qed.

Example progress_check_when_done :
  VideoDownloader.__progress_check Fixtures.v720 [] 0
  = ([ WindowUpdate "-DOWNLOADPROGRESS-" (VInt 100);
       WindowUpdate "-COMPLETED-" (VStr "100% completed") ], inr tt).
Proof. vm_compute. reflexivity. Qed.

(** ** The sanitizer and the directory disambiguator *)

Section Base.
Import DownloaderBase.

Lemma remove_forbidden_characters_clean (x : string) (c : ascii) :
  In c (chars (remove_forbidden_characters x)) -> is_forbidden c = false.
Proof.
  induction x as [| a x IH]; simpl; [intros [] |].
  destruct (is_forbidden a) eqn:Ha; [exact IH |].
  simpl. intros [<- | Hin]; [exact Ha | exact (IH Hin)].
Qed.

Lemma remove_forbidden_characters_fixpoint (x : string) :
  (forall c, In c (chars x) -> is_forbidden c = false) ->
  remove_forbidden_characters x = x.
Proof.
  induction x as [| a x IH]; simpl; intros Hx; [reflexivity |].
  rewrite (Hx a) by (left; reflexivity).
  f_equal. apply IH. intros c Hc. apply Hx. right. exact Hc.
Qed.

(** C9: the sanitizer is idempotent, and none of the nine characters
    that are invalid in file and directory names is left in its
    result. *)
Theorem remove_forbidden_characters_idempotent (x : string) :
  remove_forbidden_characters (remove_forbidden_characters x)
  = remove_forbidden_characters x /\
  (forall c, In c forbidden_characters ->
             ~ In c (chars (remove_forbidden_characters x))).
Proof.
  split.
  - apply remove_forbidden_characters_fixpoint.
    intros c. apply remove_forbidden_characters_clean.
  - intros c Hc Hin. apply remove_forbidden_characters_clean in Hin.
    unfold is_forbidden in Hin. apply bool_decide_eq_false in Hin.
    apply Hin. apply list_elem_of_In. exact Hc.
Qed.

Lemma string_length_app (s t : string) :
  String.length (s +:+ t) = (String.length s + String.length t)%nat.
Proof. induction s as [| c s IH]; simpl; [reflexivity | by rewrite IH]. Qed.

Lemma string_app_inj_r (s1 s2 t : string) : s1 +:+ t = s2 +:+ t -> s1 = s2.
Proof.
  revert s2. induction s1 as [| c s1 IH]; intros [| c' s2] Heq.
  - reflexivity.
  - apply (f_equal String.length) in Heq. simpl in Heq.
    rewrite !string_length_app in Heq. simpl in Heq. lia.
  - apply (f_equal String.length) in Heq. simpl in Heq.
    rewrite !string_length_app in Heq. simpl in Heq. lia.
  - simpl in Heq. injection Heq as -> Heq. f_equal. apply IH. exact Heq.
Qed.

Lemma disambiguate_inj (name : string) : Inj (=) (=) (disambiguate name).
Proof.
  intros [| i] [| j] Heq; simpl in Heq.
  - reflexivity.
  - apply (f_equal String.length) in Heq. rewrite !string_length_app in Heq.
    simpl in Heq. lia.
  - apply (f_equal String.length) in Heq. rewrite !string_length_app in Heq.
    simpl in Heq. lia.
  - apply String.app_inj in Heq. apply (String.app_inj " (") in Heq.
    apply string_app_inj_r in Heq. by apply pretty_nat_inj in Heq.
Qed.

Lemma dir_candidate_inj (parent name : string) :
  Inj (=) (=) (fun i => join parent (disambiguate name i)).
Proof.
  intros i j Heq. unfold join in Heq.
  apply String.app_inj in Heq. apply (String.app_inj "/") in Heq.
  by apply disambiguate_inj in Heq.
Qed.

(** The search never moves backwards and skips existing paths only. *)
Lemma first_free_skips fs cand fuel i :
  (i <= first_free fs cand fuel i)%nat /\
  forall j, (i <= j < first_free fs cand fuel i)%nat -> cand j ∈ fs.
Proof.
  revert i. induction fuel as [| fuel IH]; intros i; simpl.
  - split; [lia | intros j Hj; lia].
  - case_bool_decide as Hi; [| split; [lia | intros j Hj; lia]].
    destruct (IH (S i)) as [Hle Hskip]. split; [lia |].
    intros j Hj. destruct (decide (j = i)) as [-> | Hne]; [exact Hi |].
    apply Hskip. lia.
Qed.

(** With as much fuel as there are existing paths not yet tried, the
    search ends on a path that does not exist. *)
Lemma first_free_fresh fs cand (Hinj : Inj (=) (=) cand) fuel i (X : gset string) :
  (forall s, s ∈ fs -> s ∈ X \/ exists j, (j < i)%nat /\ s = cand j) ->
  (size X <= fuel)%nat ->
  cand (first_free fs cand fuel i) ∉ fs.
Proof.
  revert i X. induction fuel as [| fuel IH]; intros i X Hcover Hsize; simpl.
  - intros Hin. destruct (Hcover _ Hin) as [HX | (j & Hj & Heq)].
    + assert (size X = 0%nat) as Hnil by lia.
      apply size_empty_inv in Hnil. set_solver.
    + apply Hinj in Heq. lia.
  - case_bool_decide as Hi; [| exact Hi].
    apply (IH (S i) (X ∖ {[cand i]})).
    + intros s Hs. destruct (decide (s = cand i)) as [-> | Hne].
      * right. exists i. split; [lia | reflexivity].
      * destruct (Hcover _ Hs) as [HX | (j & Hj & Heq)].
        -- left. set_solver.
        -- right. exists j. split; [lia | exact Heq].
    + assert (cand i ∈ X) as HiX.
      { destruct (Hcover _ Hi) as [HX | (j & Hj & Heq)]; [exact HX |].
        apply Hinj in Heq. lia. }
      assert (size X = S (size (X ∖ {[cand i]}))) as Hsz.
      { assert (X = {[cand i]} ∪ X ∖ {[cand i]}) as HX
          by (apply union_difference_L; set_solver).
        rewrite HX at 1. rewrite size_union; [by rewrite size_singleton |].
        apply disjoint_difference_r1. reflexivity. }
      lia.
Qed.

(** C5: [rename_dir] never returns a path that exists when it is
    called.  It returns [parent/name] if that path does not exist;
    otherwise it returns [parent/name (i)] for the first [i >= 1] whose
    path does not exist, every earlier attempt being an existing
    path. *)
Theorem rename_dir_never_returns_existing_path
    (fs : gset string) (parent name : string) :
  (rename_dir fs parent name ∉ fs) /\
  (join parent name ∉ fs -> rename_dir fs parent name = join parent name) /\
  (join parent name ∈ fs ->
   exists i, (0 < i)%nat /\
     rename_dir fs parent name
     = join parent (name +:+ " (" +:+ pretty i +:+ ")") /\
     forall j, (j < i)%nat -> join parent (disambiguate name j) ∈ fs).
Proof.
  unfold rename_dir.
  set (cand := fun i => join parent (disambiguate name i)).
  split; [| split].
  - apply (first_free_fresh fs cand (dir_candidate_inj parent name) (size fs) 0 fs);
      [intros s Hs; by left | lia].
  - intros Hfree. destruct (size fs) as [| n]; [reflexivity |].
    simpl. case_bool_decide as H0; [| reflexivity].
    exfalso. apply Hfree. exact H0.
  - intros Htaken.
    destruct (first_free_skips fs cand (size fs) 0) as [_ Hskip].
    pose proof (first_free_fresh fs cand (dir_candidate_inj parent name)
                  (size fs) 0 fs) as Hfresh.
    destruct (first_free fs cand (size fs) 0) as [| i] eqn:Hi.
    + exfalso. apply Hfresh; [intros s Hs; by left | lia | exact Htaken].
    + exists (S i). split; [lia |]. split; [reflexivity |].
      intros j Hj. apply Hskip. lia.
Qed.
End Base.

(** ** Concrete runs *)

Section Runs.
Import Fixtures.
Local Open Scope string_scope.

(** The stored selection is [None] for a playlist whose page reports
    more items than can be enumerated; both checks fire in both
    classes. *)
Lemma download_checks_preconditions_in_order_run :
  PlaylistDownloader.download fs0
    (PlaylistDownloader.mk partly_private
       (PlaylistDownloader.build_select_dict partly_private) "") HD
  = ([Popup "This resolution is resolution unavailable." (Some "Info")], inr tt) /\
  PlaylistDownloader.download fs0
    (PlaylistDownloader.mk three (PlaylistDownloader.build_select_dict three) "") HD
  = ([Popup "Please select a download directory" (Some "Info")], inr tt) /\
  VideoDownloader.download fs0
    (VideoDownloader.mk no_hd (VideoDownloader.build_select_dict no_hd) "/home/u") HD
  = ([Popup "This resolution is resolution unavailable." (Some "Info")], inr tt) /\
  VideoDownloader.download fs0
    (VideoDownloader.mk full (VideoDownloader.build_select_dict full) "") HD
  = ([Popup "Please select a download directory" (Some "Info")], inr tt).
Proof.
  destruct (download_checks_preconditions_in_order fs0 HD) as (H1 & H2 & H3 & H4).
  split; [apply H1; reflexivity |].
  split; [apply (H2 _ [Some v720; Some v720; Some v720]); reflexivity |].
  split; [apply H3; reflexivity |].
  apply (H4 _ v720); reflexivity.
Defined.

(** Three items, all resolved under LD: three transfers into the
    directory named after the sanitized playlist title, and the
    counter texts in order. *)
Lemma playlist_download_reports_each_item_run :
  let d := PlaylistDownloader.mk three (PlaylistDownloader.build_select_dict three)
             "/home/u" in
  shown "-DOWNLOADPROGRESS-" (trace (PlaylistDownloader.download fs0 d LD))
  = [VInt 1; VInt 2; VInt 3; VInt 0] /\
  shown "-COMPLETED-" (trace (PlaylistDownloader.download fs0 d LD))
  = [VStr "1 of 3"; VStr "2 of 3"; VStr "3 of 3"; VStr ""] /\
  transferred (trace (PlaylistDownloader.download fs0 d LD)) = [v360; v360; v360].
Proof.
  intros d.
  destruct (playlist_download_reports_each_item fs0 d LD
              [Some v360; Some v360; Some v360] [v360; v360; v360])
    as (_ & Hbar & Htext & Hstreams);
    [reflexivity | discriminate | reflexivity | reflexivity |].
  split; [exact Hbar |]. split; [exact Htext | exact Hstreams].
Defined.

Lemma progress_check_shows_percent_complete_run :
  render (trace (VideoDownloader.__progress_check v360 [] 1048576)) ∅
    !! "-DOWNLOADPROGRESS-" = Some (VInt 80) /\
  render (trace (VideoDownloader.__progress_check v360 [] 1048576)) ∅
    !! "-COMPLETED-" = Some (VStr "80% completed").
Proof.
  destruct (progress_check_shows_percent_complete v360 [] 1048576
              (S754_finite false 7205759403792794 (-55)) 20 ∅)
    as (_ & Hbar & Htext); [vm_compute; reflexivity | vm_compute; reflexivity |].
  split; [exact Hbar | exact Htext].
Defined.

Lemma rename_dir_never_returns_existing_path_run :
  (DownloaderBase.join "/home/u" "MyList" ∈ fs_taken) /\
  (DownloaderBase.rename_dir fs_taken "/home/u" "MyList" ∉ fs_taken) /\
  DownloaderBase.rename_dir fs0 "/home/u" "MyList" = "/home/u/MyList" /\
  exists i, (0 < i)%nat /\
    DownloaderBase.rename_dir fs_taken "/home/u" "MyList"
    = DownloaderBase.join "/home/u" ("MyList" +:+ " (" +:+ pretty i +:+ ")").
Proof.
  assert (DownloaderBase.join "/home/u" "MyList" ∈ fs_taken) as Htaken.
  { unfold fs_taken, DownloaderBase.join. simpl. set_solver. }
  destruct (rename_dir_never_returns_existing_path fs_taken "/home/u" "MyList")
    as (Hfresh & _ & Hsuffix).
  destruct (rename_dir_never_returns_existing_path fs0 "/home/u" "MyList")
    as (_ & Hplain & _).
  split; [exact Htaken |]. split; [exact Hfresh |].
  split; [apply Hplain; apply not_elem_of_empty |].
  destruct (Hsuffix Htaken) as (i & Hi & Heq & _). exists i. split; [exact Hi | exact Heq].
Defined.

Example rename_dir_first_suffix :
  DownloaderBase.rename_dir {[ "/home/u/MyList" ]} "/home/u" "MyList" = "/home/u/MyList (1)".
Proof. vm_compute. reflexivity. Qed.

Example rename_dir_second_suffix :
  DownloaderBase.rename_dir fs_taken "/home/u" "MyList" = "/home/u/MyList (2)".
Proof. vm_compute. reflexivity. Qed.

Lemma remove_forbidden_characters_idempotent_run :
  DownloaderBase.remove_forbidden_characters
    (DownloaderBase.remove_forbidden_characters "a/b:c*d?e<f>g|h")
  = DownloaderBase.remove_forbidden_characters "a/b:c*d?e<f>g|h" /\
  ~ In "/"%char (chars (DownloaderBase.remove_forbidden_characters "a/b:c*d?e<f>g|h")).
Proof.
  destruct (remove_forbidden_characters_idempotent "a/b:c*d?e<f>g|h") as [Hidem Hclean].
  split; [exact Hidem |]. apply Hclean. vm_compute. tauto.
Defined.

Example remove_forbidden_characters_strips :
  DownloaderBase.remove_forbidden_characters "a/b:c*d?e<f>g|h" = "abcdefgh".
Proof. reflexivity. Qed.

(** A tier stored as available with an item that does not resolve: the
    first item is transferred, then the loop raises on the second. *)
Example download_raises_at_unresolved_item :
  PlaylistDownloader.download fs0
    (PlaylistDownloader.mk mixed_audio
       (PlaylistDownloader.build_select_dict mixed_audio) "/home/u") AUDIO
  = ([ StreamDownload a128 "/home/u/Mixed" "Intro part 13.mp4";
       WindowUpdate "-DOWNLOADPROGRESS-" (VInt 1);
       WindowUpdate "-COMPLETED-" (VStr "1 of 2") ],
     inl AttributeError).
Proof. vm_compute. reflexivity. Qed.

(** C8 (as the claim states it, refuted): the one item of [one_webm]
    resolves under AUDIO to a stream whose container is webm, and the
    download writes it to [Song.mp4], not to [Song.webm]. *)
Lemma download_extension_differs_from_container :
  PlaylistDownloader.resolve AUDIO webm_audio = Some a128_webm /\
  Stream.subtype a128_webm = "webm" /\
  In (StreamDownload a128_webm "/home/u/Songs" "Song.mp4")
     (trace (PlaylistDownloader.download fs0
               (PlaylistDownloader.mk one_webm
                  (PlaylistDownloader.build_select_dict one_webm) "/home/u") AUDIO)) /\
  "Song.mp4" <> remove_forbidden_characters (YouTube.title webm_audio)
                +:+ "." +:+ Stream.subtype a128_webm.
Proof.
  split; [reflexivity |]. split; [reflexivity |].
  split; [left; reflexivity | discriminate].
Qed.

Lemma download_filename_has_fixed_mp4_extension_run :
  exists v, In v (Playlist.videos one_webm) /\
            PlaylistDownloader.resolve AUDIO v = Some a128_webm /\
            "Song.mp4" = remove_forbidden_characters (YouTube.title v) +:+ ".mp4".
Proof.
  apply (proj1 (download_filename_has_fixed_mp4_extension fs0 AUDIO a128_webm
                  "/home/u/Songs" "Song.mp4")
           (PlaylistDownloader.mk one_webm
              (PlaylistDownloader.build_select_dict one_webm) "/home/u")).
  left. reflexivity.
Defined.

(** The stored AUDIO entry of [one_full] holds the 360p stream; a
    downloader storing [[None]] instead behaves the same, and both
    transfer the audio stream. *)
Lemma download_ignores_stored_selection_run :
  let d1 := PlaylistDownloader.mk one_full
              (PlaylistDownloader.build_select_dict one_full) "/home/u" in
  let d2 := PlaylistDownloader.mk one_full [(AUDIO, Some [None])] "/home/u" in
  PlaylistDownloader.download fs0 d1 AUDIO = PlaylistDownloader.download fs0 d2 AUDIO /\
  transferred (trace (PlaylistDownloader.download fs0 d1 AUDIO)) = [a128].
Proof.
  intros d1 d2.
  destruct (download_ignores_stored_selection fs0 d1 d2 AUDIO [Some v360] [None])
    as [Hsame Hstreams]; [reflexivity | reflexivity | reflexivity | reflexivity |].
  split; [exact Hsame |]. apply Hstreams. discriminate.
Defined.
End Runs.

(* ===================================================================== *)
(** * Further properties of the two classes *)
(* ===================================================================== *)

(** ** Construction and size labels *)

Lemma dict_get_other {V} (o : DownloadOption) (a b c : V) :
  ~ In o [HD; LD; AUDIO] -> dict_get o [(HD, a); (LD, b); (AUDIO, c)] = None.
Proof.
  intros Ho. unfold dict_get. simpl.
  rewrite !bool_decide_eq_false_2; [reflexivity | | |];
    intros <-; apply Ho; simpl; auto.
Qed.

Lemma all_resolved_list {A} (l : list (option A)) :
  ~ In None l -> exists xs, l = Some <$> xs.
Proof.
  induction l as [| [a |] l IH]; intros Hno.
  - exists []. reflexivity.
  - destruct IH as [xs ->]; [intros Hin; apply Hno; right; exact Hin |].
    exists (a :: xs). reflexivity.
  - exfalso. apply Hno. left. reflexivity.
Qed.

Lemma unresolved_or_resolved {A} (l : list (option A)) :
  In None l \/ exists xs, l = Some <$> xs.
Proof.
  induction l as [| [a |] l IH].
  - right. exists []. reflexivity.
  - destruct IH as [Hin | [xs ->]]; [left; right; exact Hin |].
    right. exists (a :: xs). reflexivity.
  - left. left. reflexivity.
Qed.

Lemma resolved_has_no_none {A} (xs : list A) : ~ In None (Some <$> xs).
Proof. induction xs as [| x xs IH]; simpl; [tauto | intros [H | H]; [discriminate | tauto]]. Qed.

Lemma mb_label_not_unavailable (s : string) : (s +:+ " MB")%string <> "Unavailable"%string.
Proof.
  do 12 (destruct s as [| ? s]; [discriminate |]). discriminate.
Qed.

Lemma truediv_mebibyte (n : Z) :
  PyFloat.truediv n 1048576
  = inr (SFdiv PyFloat.prec PyFloat.emax (PyFloat.of_int n) (PyFloat.of_int 1048576)).
Proof. reflexivity. Qed.

Section Construction.
Context `{SQ : !StreamQuery}.

(** X2: Constructing a [PlaylistDownloader] shows nothing and ends in one of
    three ways.  If the reported length differs from the number of
    items, all three tiers are stored as [None].  If they agree and
    every item resolves under HD and under LD, the lists are stored,
    the AUDIO entry holding the LD list.  If they agree and some item
    does not resolve under HD or under LD, the constructor raises
    [AttributeError] while computing a size label. *)
Theorem playlist_init_outcome (p : Playlist.t) :
  (Playlist.length p <> len (Playlist.videos p) ->
   PlaylistDownloader.__init__ p
   = ([], inr (PlaylistDownloader.mk p [(HD, None); (LD, None); (AUDIO, None)] ""))) /\
  (Playlist.length p = len (Playlist.videos p) ->
   ~ In None (PlaylistDownloader.get_playlist p HD) ->
   ~ In None (PlaylistDownloader.get_playlist p LD) ->
   PlaylistDownloader.__init__ p
   = ([], inr (PlaylistDownloader.mk p
                 [(HD, Some (PlaylistDownloader.get_playlist p HD));
                  (LD, Some (PlaylistDownloader.get_playlist p LD));
                  (AUDIO, Some (PlaylistDownloader.get_playlist p LD))] ""))) /\
  (Playlist.length p = len (Playlist.videos p) ->
   In None (PlaylistDownloader.get_playlist p HD) \/
   In None (PlaylistDownloader.get_playlist p LD) ->
   PlaylistDownloader.__init__ p = ([], inl AttributeError)).
Proof.
  unfold PlaylistDownloader.__init__, PlaylistDownloader.build_select_dict.
  rewrite !len_get_playlist.
  destruct (Z.eqb_spec (len (Playlist.videos p)) (Playlist.length p)) as [E | E];
    (split; [| split]); try (intros; congruence).
  - intros _ Hhd Hld.
    destruct (all_resolved_list _ Hhd) as [hs Ehs].
    destruct (all_resolved_list _ Hld) as [ls Els].
    rewrite Ehs, Els.
    rewrite (get_playlist_size_resolved _ HD hs) by apply dict_get_HD.
    rewrite (get_playlist_size_resolved _ LD ls) by apply dict_get_LD.
    rewrite (get_playlist_size_resolved _ AUDIO ls) by apply dict_get_AUDIO.
    reflexivity.
  - intros _ Hnone.
    destruct (unresolved_or_resolved (PlaylistDownloader.get_playlist p HD))
      as [Hhd | [hs Ehs]].
    + rewrite (get_playlist_size_unresolved _ HD _ (dict_get_HD _ _ _) Hhd). reflexivity.
    + destruct Hnone as [Hin | Hld];
        [rewrite Ehs in Hin; by apply resolved_has_no_none in Hin |].
      rewrite Ehs.
      rewrite (get_playlist_size_resolved _ HD hs) by apply dict_get_HD.
      rewrite bind_ret_l.
      rewrite (get_playlist_size_unresolved _ LD _ (dict_get_LD _ _ _) Hld). reflexivity.
  - intros _.
    rewrite (get_playlist_size_unavailable _ HD) by apply dict_get_HD.
    rewrite (get_playlist_size_unavailable _ LD) by apply dict_get_LD.
    rewrite (get_playlist_size_unavailable _ AUDIO) by apply dict_get_AUDIO.
    reflexivity.
Qed.

(** X3: In the dictionary of a playlist the AUDIO entry always equals the
    LD entry, and so does the size label computed from it. *)
Theorem playlist_audio_entry_equals_ld_entry (p : Playlist.t) :
  dict_get AUDIO (PlaylistDownloader.build_select_dict p)
  = dict_get LD (PlaylistDownloader.build_select_dict p) /\
  PlaylistDownloader.get_playlist_size (PlaylistDownloader.build_select_dict p) AUDIO
  = PlaylistDownloader.get_playlist_size (PlaylistDownloader.build_select_dict p) LD.
Proof.
  unfold PlaylistDownloader.get_playlist_size, dict_item,
    PlaylistDownloader.build_select_dict.
  rewrite !len_get_playlist, dict_get_AUDIO, dict_get_LD. split; reflexivity.
Qed.

(** X4: Constructing a [VideoDownloader] never raises and shows nothing,
    whatever the catalogue holds: each tier stores the first match of
    its filter, or [None]. *)
Theorem video_init_never_raises (v : YouTube.t) :
  VideoDownloader.__init__ v
  = ([], inr (VideoDownloader.mk v
                [(HD, VideoDownloader.get_video v HD);
                 (LD, VideoDownloader.get_video v LD);
                 (AUDIO, VideoDownloader.get_video v AUDIO)] "")).
Proof.
  unfold VideoDownloader.__init__, VideoDownloader.build_select_dict,
    VideoDownloader.get_video_size, dict_item.
  rewrite dict_get_HD, dict_get_LD, dict_get_AUDIO.
  destruct (VideoDownloader.get_video v HD), (VideoDownloader.get_video v LD),
    (VideoDownloader.get_video v AUDIO); reflexivity.
Qed.
End Construction.

(** X5: The label is the word [Unavailable] exactly when the stored entry is
    [None]: a stored stream or list never yields that word. *)
Theorem size_label_unavailable_iff_none (o : DownloadOption) :
  (forall sd (sel : option Stream.t),
      dict_get o sd = Some sel ->
      VideoDownloader.get_video_size sd o = ret "Unavailable"%string <-> sel = None) /\
  (forall sd (sel : option (list (option Stream.t))),
      dict_get o sd = Some sel ->
      PlaylistDownloader.get_playlist_size sd o = ret "Unavailable"%string <-> sel = None).
Proof.
  split.
  - intros sd sel Hsel. split.
    + destruct sel as [s |]; [| reflexivity].
      rewrite (get_video_size_resolved sd o s Hsel). unfold ret. intros Heq.
      injection Heq as Heq. by apply mb_label_not_unavailable in Heq.
    + intros ->. by apply get_video_size_unavailable.
  - intros sd sel Hsel. split.
    + destruct sel as [l |]; [| reflexivity].
      destruct (unresolved_or_resolved l) as [Hin | [ss ->]].
      * rewrite (get_playlist_size_unresolved sd o l Hsel Hin). discriminate.
      * rewrite (get_playlist_size_resolved sd o ss Hsel). unfold ret. intros Heq.
        injection Heq as Heq. by apply mb_label_not_unavailable in Heq.
    + intros ->. by apply get_playlist_size_unavailable.
Qed.

(** X6: For a stored list, [get_playlist_size] raises [AttributeError]
    exactly when some entry is [None]; otherwise it returns the total of
    the file sizes divided by 1048576, rounded to one decimal, followed
    by [MB]. *)
Theorem get_playlist_size_of_stored_list
    (sd : list (DownloadOption * option (list (option Stream.t))))
    (o : DownloadOption) (l : list (option Stream.t)) :
  dict_get o sd = Some (Some l) ->
  (PlaylistDownloader.get_playlist_size sd o = raise AttributeError <-> In None l) /\
  (forall ss, l = Some <$> ss ->
     PlaylistDownloader.get_playlist_size sd o
     = ret (PyFloat.str_round1
              (SFdiv PyFloat.prec PyFloat.emax
                 (PyFloat.of_int (foldr Z.add 0 (Stream.filesize <$> ss)))
                 (PyFloat.of_int 1048576))
            +:+ " MB")%string).
Proof.
  intros Hsel. split.
  - split.
    + intros Hraise. destruct (unresolved_or_resolved l) as [Hin | [ss ->]]; [exact Hin |].
      rewrite (get_playlist_size_resolved sd o ss Hsel) in Hraise. discriminate.
    + apply get_playlist_size_unresolved. exact Hsel.
  - intros ss ->. apply get_playlist_size_resolved. exact Hsel.
Qed.

(** ** More on [download] *)

Lemma render_app (t1 t2 : list Event) (w : gmap string Value) :
  render (t1 ++ t2) w = render t2 (render t1 w).
Proof. unfold render. apply fold_left_app. Qed.

Lemma render_completion (w : gmap string Value) :
  render completion_events w !! "-DOWNLOADPROGRESS-"%string = Some (VInt 0) /\
  render completion_events w !! "-COMPLETED-"%string = Some (VStr "").
Proof.
  unfold render, completion_events. simpl. split.
  - rewrite lookup_insert_ne by discriminate. apply lookup_insert_eq.
  - apply lookup_insert_eq.
Qed.

Lemma last_completion (t : list Event) :
  last (t ++ completion_events) = Some (Popup "Download completed" None).
Proof.
  unfold completion_events.
  change (t ++ [?a; ?b; ?c]) with (t ++ [a; b] ++ [c]).
  rewrite app_assoc. apply last_snoc.
Qed.

Section MoreDownloads.
Context `{SQ : !StreamQuery} `{YD : !YouTubeDownloader}.

(** X7: An option that is not a key of the dictionary: [download] raises
    [KeyError] before any effect, in both classes, and so do the size
    methods. *)
Theorem download_with_unknown_option_raises_key_error
    (fs : gset string) (o : DownloadOption) (folder : string) :
  ~ In o [HD; LD; AUDIO] ->
  (forall p : Playlist.t,
      PlaylistDownloader.download fs
        (PlaylistDownloader.mk p (PlaylistDownloader.build_select_dict p) folder) o
      = ([], inl KeyError) /\
      PlaylistDownloader.get_playlist_size (PlaylistDownloader.build_select_dict p) o
      = ([], inl KeyError)) /\
  (forall v : YouTube.t,
      VideoDownloader.download fs
        (VideoDownloader.mk v (VideoDownloader.build_select_dict v) folder) o
      = ([], inl KeyError) /\
      VideoDownloader.get_video_size (VideoDownloader.build_select_dict v) o
      = ([], inl KeyError)).
Proof.
  intros Ho. split.
  - intros p.
    unfold PlaylistDownloader.download, PlaylistDownloader.get_playlist_size, dict_item,
      PlaylistDownloader.build_select_dict. simpl.
    rewrite (dict_get_other o _ _ _ Ho). split; reflexivity.
  - intros v.
    unfold VideoDownloader.download, VideoDownloader.get_video_size, dict_item,
      VideoDownloader.build_select_dict. simpl.
    rewrite (dict_get_other o _ _ _ Ho). split; reflexivity.
Qed.

(** The loop up to an item that does not resolve: the items before it
    are transferred and counted, then [AttributeError] is raised. *)
Lemma download_loop_stops o dir n (pre post : list YouTube.t) (v : YouTube.t)
    (ss : list Stream.t) (k : Z) :
  List.map (PlaylistDownloader.resolve o) pre = Some <$> ss ->
  PlaylistDownloader.resolve o v = None ->
  PlaylistDownloader.download_loop o dir n (pre ++ v :: post) k
  = (concat (imap (fun i vs =>
                     item_events (snd vs) dir
                       (remove_forbidden_characters (YouTube.title (fst vs)) +:+ ".mp4")
                       (k + Z.of_nat (S i)) n)
                  (zip pre ss)),
     inl AttributeError).
Proof.
  intros Hres Hv. revert ss k Hres.
  induction pre as [| u pre IH]; intros ss k Hres.
  - simpl. rewrite Hv. reflexivity.
  - destruct ss as [| s ss]; [discriminate |].
    simpl in Hres. injection Hres as Hu Hrest.
    change (zip (u :: pre) (s :: ss)) with ((u, s) :: zip pre ss).
    rewrite imap_cons. cbn [concat app PlaylistDownloader.download_loop].
    rewrite Hu, !bind_emit, (IH ss (k + 1) Hrest).
    cbn [trace outcome fst snd item_events app].
    replace (k + Z.of_nat 1) with (k + 1) by lia.
    do 5 f_equal. apply imap_ext. intros i [v' s'] _. cbn [compose fst snd].
    f_equal. lia.
Qed.

(** X8: A playlist download past its two checks, with an item that does
    not resolve: the items before the first such item are transferred
    and reported, then [AttributeError] is raised.  No later item is
    transferred and the completion events never happen. *)
Theorem playlist_download_stops_at_first_unresolved_item
    (fs : gset string) (d : PlaylistDownloader.t) (o : DownloadOption)
    (l : list (option Stream.t)) (pre post : list YouTube.t) (v : YouTube.t)
    (ss : list Stream.t) :
  dict_get o (PlaylistDownloader.select_dict d) = Some (Some l) ->
  PlaylistDownloader.folder d <> ""%string ->
  Playlist.videos (PlaylistDownloader.playlist d) = pre ++ v :: post ->
  List.map (PlaylistDownloader.resolve o) pre = Some <$> ss ->
  PlaylistDownloader.resolve o v = None ->
  PlaylistDownloader.download fs d o
  = (concat (imap (fun i vs =>
                     item_events (snd vs)
                       (rename_dir fs (PlaylistDownloader.folder d)
                          (remove_forbidden_characters
                             (Playlist.title (PlaylistDownloader.playlist d))))
                       (remove_forbidden_characters (YouTube.title (fst vs)) +:+ ".mp4")
                       (Z.of_nat (S i))
                       (Playlist.length (PlaylistDownloader.playlist d)))
                  (zip pre ss)),
     inl AttributeError) /\
  transferred (trace (PlaylistDownloader.download fs d o)) = ss.
Proof.
  intros Hsel Hf Hvideos Hres Hv.
  rewrite (download_past_checks fs d o l Hsel Hf). split.
  - rewrite Hvideos, (download_loop_stops o _ _ pre post v ss 0 Hres Hv). reflexivity.
  - rewrite trace_bind, transferred_app, download_loop_transferred.
    rewrite Hvideos, (download_loop_stops o _ _ pre post v ss 0 Hres Hv).
    cbn [outcome snd]. rewrite app_nil_r, map_app, Hres. simpl. rewrite Hv.
    clear. induction ss as [| s ss IH]; [reflexivity |]. cbn. f_equal. exact IH.
Qed.



Lemma download_loop_directory o dir n (videos : list YouTube.t) (k : Z) s dir' fn :
  In (StreamDownload s dir' fn) (trace (PlaylistDownloader.download_loop o dir n videos k)) ->
  dir' = dir.
Proof.
  revert k. induction videos as [| v videos IH]; intros k; simpl.
  - intros [].
  - destruct (PlaylistDownloader.resolve o v) as [s0 |]; [| intros []].
    rewrite !bind_emit. simpl.
    intros [Heq | [Heq | [Heq | Hin]]]; try discriminate.
    + by injection Heq as _ -> _.
    + exact (IH _ Hin).
Qed.

(** X10: Every transfer of a playlist download writes into one directory,
    the one that [rename_dir] returned before the loop for the folder
    and the sanitized playlist title; every transfer of a video
    download writes into the folder itself. *)
Theorem download_output_directory
    (fs : gset string) (o : DownloadOption) (s : Stream.t) (dir fn : string) :
  (forall d : PlaylistDownloader.t,
      In (StreamDownload s dir fn) (trace (PlaylistDownloader.download fs d o)) ->
      dir = rename_dir fs (PlaylistDownloader.folder d)
              (remove_forbidden_characters
                 (Playlist.title (PlaylistDownloader.playlist d)))) /\
  (forall d : VideoDownloader.t,
      In (StreamDownload s dir fn) (trace (VideoDownloader.download fs d o)) ->
      dir = VideoDownloader.folder d).
Proof.
  split.
  - intros d. unfold PlaylistDownloader.download, dict_item.
    destruct (dict_get o (PlaylistDownloader.select_dict d)) as [[l |] |];
      [| simpl; intros [Heq | []]; discriminate | intros []].
    rewrite bind_ret_l.
    destruct (py_not_str (PlaylistDownloader.folder d));
      [simpl; intros [Heq | []]; discriminate |].
    rewrite trace_bind. intros Hin. apply in_app_or in Hin as [Hin | Hin].
    + eapply download_loop_directory. exact Hin.
    + destruct (outcome _); [destruct Hin |].
      simpl in Hin. destruct Hin as [Heq | [Heq | [Heq | []]]]; discriminate.
  - intros d. unfold VideoDownloader.download, dict_item.
    destruct (dict_get o (VideoDownloader.select_dict d)) as [[s0 |] |];
      [| simpl; intros [Heq | []]; discriminate | intros []].
    rewrite bind_ret_l.
    destruct (py_not_str (VideoDownloader.folder d));
      simpl; intros [Heq | []]; [discriminate |].
    by injection Heq as _ -> _.
Qed.

(** X11: A playlist download that got past its checks and returned normally
    ends with the completion popup and leaves the bar at [0] and the
    counter text empty, whatever the widgets showed before. *)
Theorem playlist_download_resets_display
    (fs : gset string) (d : PlaylistDownloader.t) (o : DownloadOption)
    (l : list (option Stream.t)) (w : gmap string Value) :
  dict_get o (PlaylistDownloader.select_dict d) = Some (Some l) ->
  PlaylistDownloader.folder d <> ""%string ->
  outcome (PlaylistDownloader.download fs d o) = inr tt ->
  render (trace (PlaylistDownloader.download fs d o)) w
    !! "-DOWNLOADPROGRESS-"%string = Some (VInt 0) /\
  render (trace (PlaylistDownloader.download fs d o)) w
    !! "-COMPLETED-"%string = Some (VStr "") /\
  last (trace (PlaylistDownloader.download fs d o))
  = Some (Popup "Download completed" None).
Proof.
  intros Hsel Hf. rewrite (download_past_checks fs d o l Hsel Hf).
  set (loop := PlaylistDownloader.download_loop o _ _ _ 0).
  destruct loop as [t [e | []]]; [discriminate |]. intros _.
  change (trace (bind (t, inr ()) (fun _ => PlaylistDownloader.__download_complete)))
    with (t ++ completion_events).
  rewrite render_app. destruct (render_completion (render t w)) as [Hbar Htext].
  split; [exact Hbar |]. split; [exact Htext |].
  apply last_completion.
Qed.

Lemma download_loop_bar_bounds o dir n (videos : list YouTube.t) (k z : Z) :
  In (VInt z) (shown "-DOWNLOADPROGRESS-"
                 (trace (PlaylistDownloader.download_loop o dir n videos k))) ->
  k < z <= k + len videos.
Proof.
  revert k. induction videos as [| v videos IH]; intros k; simpl.
  - intros [].
  - destruct (PlaylistDownloader.resolve o v) as [s |]; [| intros []].
    rewrite !bind_emit. cbn [trace fst].
    change (shown "-DOWNLOADPROGRESS-" (?a :: ?b :: ?c :: ?t))
      with (VInt (k + 1) :: shown "-DOWNLOADPROGRESS-" t).
    unfold len in *. simpl List.length. intros [Heq | Hin].
    + injection Heq as <-. lia.
    + specialize (IH _ Hin). lia.
Qed.

(** X12: The progress bar of the playlist window is created with the
    reported length as its maximum.  For a downloader as [__init__]
    builds it, every value that [download] sets the bar to lies between
    [0] and that maximum, whichever option is asked for and whether or
    not the download gets through. *)
Theorem playlist_bar_stays_within_maximum
    (fs : gset string) (p : Playlist.t) (folder : string) (o : DownloadOption) (z : Z) :
  In (VInt z)
     (shown "-DOWNLOADPROGRESS-"
        (trace (PlaylistDownloader.download fs
                  (PlaylistDownloader.mk p (PlaylistDownloader.build_select_dict p) folder)
                  o))) ->
  0 <= z <= Playlist.length p.
Proof.
  unfold PlaylistDownloader.download, dict_item.
  cbn [PlaylistDownloader.select_dict PlaylistDownloader.folder PlaylistDownloader.playlist].
  destruct (dict_get o (PlaylistDownloader.build_select_dict p)) as [[l |] |] eqn:Hsel;
    [| intros [] | intros []].
  assert (Playlist.length p = len (Playlist.videos p)) as Hlen.
  { revert Hsel. unfold PlaylistDownloader.build_select_dict.
    rewrite !len_get_playlist.
    destruct (Z.eqb_spec (len (Playlist.videos p)) (Playlist.length p)) as [E | E];
      [intros _; symmetry; exact E |].
    unfold dict_get. simpl. repeat case_bool_decide; simpl; discriminate. }
  rewrite bind_ret_l. destruct (py_not_str folder); [intros [] |].
  rewrite trace_bind, shown_app. intros Hin. apply in_app_or in Hin as [Hin | Hin].
  - apply download_loop_bar_bounds in Hin. lia.
  - destruct (outcome _); [destruct Hin |].
    simpl in Hin. destruct Hin as [Heq | []]. injection Heq as <-.
    unfold len in Hlen. lia.
Qed.

End MoreDownloads.

(** ** More on the callbacks *)

(** X14: A stream whose size is zero: the progress callback raises
    [ZeroDivisionError] and updates no widget. *)
Theorem progress_check_raises_on_empty_stream
    (stream : Stream.t) (chunk : list Byte.byte) (bytes_remaining : Z) :
  Stream.filesize stream = 0 ->
  VideoDownloader.__progress_check stream chunk bytes_remaining
  = ([], inl ZeroDivisionError).
Proof.
  intros Hsize.
  unfold VideoDownloader.__progress_check, VideoDownloader.percent_remaining.
  rewrite Hsize, truediv_by_zero. reflexivity.
Qed.

(** X15: Whatever was displayed during the transfer, after [__on_complete]
    the bar is at [0] and the text is empty, and the last effect is the
    completion popup. *)
Theorem on_complete_resets_display
    (before : list Event) (stream : Stream.t) (file_path : option string)
    (w : gmap string Value) :
  render (before ++ trace (VideoDownloader.__on_complete stream file_path)) w
    !! "-DOWNLOADPROGRESS-"%string = Some (VInt 0) /\
  render (before ++ trace (VideoDownloader.__on_complete stream file_path)) w
    !! "-COMPLETED-"%string = Some (VStr "") /\
  last (before ++ trace (VideoDownloader.__on_complete stream file_path))
  = Some (Popup "Download completed" None).
Proof.
  change (trace (VideoDownloader.__on_complete stream file_path)) with completion_events.
  rewrite render_app. destruct (render_completion (render before w)) as [Hbar Htext].
  split; [exact Hbar |]. split; [exact Htext |].
  apply last_completion.
Qed.

(** ** The event loops *)

Arguments ui_bind : simpl never.

Lemma ui_bind_ret_l {A B} (a : A) (k : A -> UI B) : ui_bind (ui_ret a) k = k a.
Proof. unfold ui_bind, ui_ret. destruct (k a) as [t r]. reflexivity. Qed.

Lemma ui_bind_ret_r (m : UI unit) : ui_bind m (fun _ => ui_ret tt) = m.
Proof.
  destruct m as [t [e | []]]; unfold ui_bind, ui_ret; [reflexivity |].
  by rewrite app_nil_r.
Qed.

Lemma ui_bind_fst {A B} (m : UI A) (k : A -> UI B) :
  fst (ui_bind m k) = fst m ++ match snd m with inr a => fst (k a) | inl _ => [] end.
Proof.
  destruct m as [t [e | a]]; unfold ui_bind; simpl.
  - symmetry. apply app_nil_r.
  - destruct (k a). reflexivity.
Qed.

Lemma ui_bind_snd {A B} (m : UI A) (k : A -> UI B) :
  snd (ui_bind m k) = match snd m with inr a => snd (k a) | inl e => inl e end.
Proof.
  destruct m as [t [e | a]]; unfold ui_bind; simpl; [reflexivity |].
  destruct (k a). reflexivity.
Qed.

Lemma ui_bind_assoc {A B C} (m : UI A) (k : A -> UI B) (h : B -> UI C) :
  ui_bind (ui_bind m k) h = ui_bind m (fun a => ui_bind (k a) h).
Proof.
  destruct m as [t [e | a]]; unfold ui_bind; [reflexivity |].
  destruct (k a) as [t' [e | b]]; [reflexivity |].
  destruct (h b) as [t'' r]. by rewrite app_assoc.
Qed.

Lemma run_has_no_close {A} (m : Eff A) : ~ In WindowClose (fst (run m)).
Proof.
  unfold run. simpl. induction (fst m) as [| ev t IH]; simpl; [tauto |].
  intros [Heq | Hin]; [discriminate | exact (IH Hin)].
Qed.

Section Loops.
Context `{SQ : !StreamQuery} `{YD : !YouTubeDownloader}.

Lemma playlist_dispatch_cases (key : string) (fs : gset string)
    (links : PlaylistWindow.Links) (self : PlaylistDownloader.t) :
  PlaylistWindow.dispatch links self (Some key) fs
  = if String.eqb key "-URL-" then ui_emit (WebOpen (PlaylistWindow.url links))
    else if String.eqb key "-OWNER-"
         then ui_emit (WebOpen (PlaylistWindow.owner_url links))
         else match playlist_button key with
              | Some o => run (PlaylistDownloader.download fs self o)
              | None => ui_ret tt
              end.
Proof.
  unfold PlaylistWindow.dispatch, playlist_button, event_is.
  destruct (String.eqb_spec key "-URL-") as [-> | _]; [reflexivity |].
  destruct (String.eqb_spec key "-OWNER-") as [-> | _]; [reflexivity |].
  destruct (String.eqb_spec key "-HD-") as [-> | _];
    [cbn [ui_when String.eqb Ascii.eqb Bool.eqb]; by rewrite !ui_bind_ret_l, ui_bind_ret_r |].
  destruct (String.eqb_spec key "-LD-") as [-> | _];
    [cbn [ui_when String.eqb Ascii.eqb Bool.eqb]; by rewrite !ui_bind_ret_l, ui_bind_ret_r |].
  destruct (String.eqb_spec key "-AUDIOALL-") as [-> | _];
    cbn [ui_when]; by rewrite !ui_bind_ret_l.
Qed.

Lemma video_dispatch_cases (key : string) (fs : gset string)
    (links : VideoWindow.Links) (self : VideoDownloader.t) :
  VideoWindow.dispatch links self (Some key) fs
  = if String.eqb key "-URL-" then ui_emit (WebOpen (VideoWindow.url links))
    else if String.eqb key "-CREATOR-"
         then ui_emit (WebOpen (VideoWindow.channel_url links))
         else if String.eqb key "-THUMB-"
              then ui_emit (WebOpen (VideoWindow.thumbnail_url links))
              else match video_button key with
                   | Some o => run (VideoDownloader.download fs self o)
                   | None => ui_ret tt
                   end.
Proof.
  unfold VideoWindow.dispatch, video_button, event_is.
  destruct (String.eqb_spec key "-URL-") as [-> | _]; [reflexivity |].
  destruct (String.eqb_spec key "-CREATOR-") as [-> | _]; [reflexivity |].
  destruct (String.eqb_spec key "-THUMB-") as [-> | _]; [reflexivity |].
  destruct (String.eqb_spec key "-HD-") as [-> | _];
    [cbn [ui_when String.eqb Ascii.eqb Bool.eqb]; by rewrite !ui_bind_ret_l, ui_bind_ret_r |].
  destruct (String.eqb_spec key "-LD-") as [-> | _];
    [cbn [ui_when String.eqb Ascii.eqb Bool.eqb]; by rewrite !ui_bind_ret_l, ui_bind_ret_r |].
  destruct (String.eqb_spec key "-AUDIO-") as [-> | _];
    cbn [ui_when]; by rewrite !ui_bind_ret_l.
Qed.

(** X16: The sequence of [if] statements of an iteration acts as a switch:
    an event key fires exactly one action, the link it names or the
    download of the option it names, and any other key fires none. *)
Theorem dispatch_is_a_switch (key : string) (fs : gset string) :
  (forall (links : PlaylistWindow.Links) (self : PlaylistDownloader.t),
      PlaylistWindow.dispatch links self (Some key) fs
      = if String.eqb key "-URL-" then ui_emit (WebOpen (PlaylistWindow.url links))
        else if String.eqb key "-OWNER-"
             then ui_emit (WebOpen (PlaylistWindow.owner_url links))
             else match playlist_button key with
                  | Some o => run (PlaylistDownloader.download fs self o)
                  | None => ui_ret tt
                  end) /\
  (forall (links : VideoWindow.Links) (self : VideoDownloader.t),
      VideoWindow.dispatch links self (Some key) fs
      = if String.eqb key "-URL-" then ui_emit (WebOpen (VideoWindow.url links))
        else if String.eqb key "-CREATOR-"
             then ui_emit (WebOpen (VideoWindow.channel_url links))
             else if String.eqb key "-THUMB-"
                  then ui_emit (WebOpen (VideoWindow.thumbnail_url links))
                  else match video_button key with
                       | Some o => run (VideoDownloader.download fs self o)
                       | None => ui_ret tt
                       end).
Proof.
  split; intros links self;
    [apply playlist_dispatch_cases | apply video_dispatch_cases].
Qed.



Lemma playlist_dispatch_has_no_close links self e fs :
  ~ In WindowClose (fst (PlaylistWindow.dispatch links self e fs)).
Proof.
  destruct e as [key |]; [| simpl; tauto].
  rewrite playlist_dispatch_cases.
  destruct (String.eqb key "-URL-"); [simpl; intros [H | []]; discriminate |].
  destruct (String.eqb key "-OWNER-"); [simpl; intros [H | []]; discriminate |].
  destruct (playlist_button key); [apply run_has_no_close | simpl; tauto].
Qed.

Lemma video_dispatch_has_no_close links self e fs :
  ~ In WindowClose (fst (VideoWindow.dispatch links self e fs)).
Proof.
  destruct e as [key |]; [| simpl; tauto].
  rewrite video_dispatch_cases.
  destruct (String.eqb key "-URL-"); [simpl; intros [H | []]; discriminate |].
  destruct (String.eqb key "-CREATOR-"); [simpl; intros [H | []]; discriminate |].
  destruct (String.eqb key "-THUMB-"); [simpl; intros [H | []]; discriminate |].
  destruct (video_button key); [apply run_has_no_close | simpl; tauto].
Qed.

(** X17: The window is closed exactly when the loop was left through
    [break]: a loop that is still waiting, or that an exception ended,
    has not closed it. *)
Theorem window_closed_iff_loop_left_by_break (turns : list Turn) :
  (forall (links : PlaylistWindow.Links) (self : PlaylistDownloader.t),
      In WindowClose (fst (PlaylistWindow.create_window links self turns))
      <-> exists self', snd (PlaylistWindow.create_window links self turns)
                        = inr (Closed self')) /\
  (forall (links : VideoWindow.Links) (self : VideoDownloader.t),
      In WindowClose (fst (VideoWindow.create_window links self turns))
      <-> exists self', snd (VideoWindow.create_window links self turns)
                        = inr (Closed self')).
Proof.
  split; intros links; induction turns as [| t turns IH]; intros self;
    try (simpl; split; [tauto | intros [self' Heq]; discriminate]).
  - cbn [PlaylistWindow.create_window].
    destruct (values t) as [vs |]; [| simpl; split; eauto].
    destruct (vs !! "-FOLDER-"%string) as [f |];
      [| simpl; split; [tauto | intros [self' Heq]; discriminate]].
    destruct (event t) as [key |] eqn:He; [| simpl; split; eauto].
    rewrite ui_bind_fst, ui_bind_snd.
    pose proof (playlist_dispatch_has_no_close links
                  (PlaylistWindow.set_folder self f) (Some key) (paths t)) as Hno.
    destruct (snd (PlaylistWindow.dispatch _ _ _ _)) as [e | []].
    + rewrite app_nil_r. split; [tauto | intros [self' Heq]; discriminate].
    + rewrite <- IH. rewrite in_app_iff. tauto.
  - cbn [VideoWindow.create_window].
    destruct (values t) as [vs |]; [| simpl; split; eauto].
    destruct (vs !! "-FOLDER-"%string) as [f |];
      [| simpl; split; [tauto | intros [self' Heq]; discriminate]].
    destruct (event t) as [key |] eqn:He; [| simpl; split; eauto].
    rewrite ui_bind_fst, ui_bind_snd.
    pose proof (video_dispatch_has_no_close links
                  (VideoWindow.set_folder self f) (Some key) (paths t)) as Hno.
    destruct (snd (VideoWindow.dispatch _ _ _ _)) as [e | []].
    + rewrite app_nil_r. split; [tauto | intros [self' Heq]; discriminate].
    + rewrite <- IH. rewrite in_app_iff. tauto.
Qed.

(** X18: The loop over a sequence of turns followed by another: if the first
    sequence leaves the loop waiting, the second continues from the
    downloader it left; if it closed the window or raised, the second
    sequence is never read. *)
Theorem create_window_composes (pre rest : list Turn) :
  (forall (links : PlaylistWindow.Links) (self : PlaylistDownloader.t),
      PlaylistWindow.create_window links self (pre ++ rest)
      = match snd (PlaylistWindow.create_window links self pre) with
        | inr (Waiting self') =>
            (fst (PlaylistWindow.create_window links self pre)
               ++ fst (PlaylistWindow.create_window links self' rest),
             snd (PlaylistWindow.create_window links self' rest))
        | _ => PlaylistWindow.create_window links self pre
        end) /\
  (forall (links : VideoWindow.Links) (self : VideoDownloader.t),
      VideoWindow.create_window links self (pre ++ rest)
      = match snd (VideoWindow.create_window links self pre) with
        | inr (Waiting self') =>
            (fst (VideoWindow.create_window links self pre)
               ++ fst (VideoWindow.create_window links self' rest),
             snd (VideoWindow.create_window links self' rest))
        | _ => VideoWindow.create_window links self pre
        end).
Proof.
  split; intros links; induction pre as [| t pre IH]; intros self.
  - simpl. by destruct (PlaylistWindow.create_window links self rest).
  - cbn [app PlaylistWindow.create_window].
    destruct (values t) as [vs |]; [| reflexivity].
    destruct (vs !! "-FOLDER-"%string) as [f |]; [| reflexivity].
    destruct (event t) as [key |]; [| reflexivity].
    rewrite IH.
    destruct (PlaylistWindow.dispatch _ _ _ _) as [td [e | []]]; [reflexivity |].
    unfold ui_bind.
    destruct (PlaylistWindow.create_window links (PlaylistWindow.set_folder self f) pre)
      as [tp [e | [self' | self']]]; cbn [fst snd]; try reflexivity.
    destruct (PlaylistWindow.create_window links self' rest) as [tr rr].
    cbn [fst snd]. by rewrite app_assoc.
  - simpl. by destruct (VideoWindow.create_window links self rest).
  - cbn [app VideoWindow.create_window].
    destruct (values t) as [vs |]; [| reflexivity].
    destruct (vs !! "-FOLDER-"%string) as [f |]; [| reflexivity].
    destruct (event t) as [key |]; [| reflexivity].
    rewrite IH.
    destruct (VideoWindow.dispatch _ _ _ _) as [td [e | []]]; [reflexivity |].
    unfold ui_bind.
    destruct (VideoWindow.create_window links (VideoWindow.set_folder self f) pre)
      as [tp [e | [self' | self']]]; cbn [fst snd]; try reflexivity.
    destruct (VideoWindow.create_window links self' rest) as [tr rr].
    cbn [fst snd]. by rewrite app_assoc.
Qed.

(** X19: The effects of a loop and the exception that ends it, if any, do
    not depend on the folder that the downloader held before the loop:
    every iteration assigns the folder of its own turn before it
    dispatches. *)
Theorem create_window_ignores_earlier_folder (turns : list Turn) (f0 f1 : string) :
  (forall (links : PlaylistWindow.Links) (self : PlaylistDownloader.t),
      fst (PlaylistWindow.create_window links (PlaylistWindow.set_folder self f0) turns)
      = fst (PlaylistWindow.create_window links (PlaylistWindow.set_folder self f1) turns) /\
      raised (PlaylistWindow.create_window links (PlaylistWindow.set_folder self f0) turns)
      = raised (PlaylistWindow.create_window links (PlaylistWindow.set_folder self f1) turns)) /\
  (forall (links : VideoWindow.Links) (self : VideoDownloader.t),
      fst (VideoWindow.create_window links (VideoWindow.set_folder self f0) turns)
      = fst (VideoWindow.create_window links (VideoWindow.set_folder self f1) turns) /\
      raised (VideoWindow.create_window links (VideoWindow.set_folder self f0) turns)
      = raised (VideoWindow.create_window links (VideoWindow.set_folder self f1) turns)).
Proof.
  split; intros links self; destruct turns as [| t turns]; try (split; reflexivity).
  - cbn [PlaylistWindow.create_window].
    destruct (values t) as [vs |]; [| split; reflexivity].
    destruct (vs !! "-FOLDER-"%string) as [f |]; [| split; reflexivity].
    destruct (event t) as [key |]; split; reflexivity.
  - cbn [VideoWindow.create_window].
    destruct (values t) as [vs |]; [| split; reflexivity].
    destruct (vs !! "-FOLDER-"%string) as [f |]; [| split; reflexivity].
    destruct (event t) as [key |]; split; reflexivity.
Qed.





End Loops.

(** ** Further concrete runs *)

Section MoreRuns.
Import Fixtures Sessions.
Local Open Scope string_scope.

Lemma select_dict_available_iff_length_run :
  (exists l, dict_get HD (PlaylistDownloader.build_select_dict one_no_hd) = Some (Some l))
  <-> Playlist.length one_no_hd = len (Playlist.videos one_no_hd).
Proof. apply (select_dict_available_iff_length one_no_hd HD). simpl. auto. Defined.

Lemma playlist_init_outcome_run :
  PlaylistDownloader.__init__ partly_private
  = ([], inr (PlaylistDownloader.mk partly_private
                [(HD, None); (LD, None); (AUDIO, None)] "")) /\
  PlaylistDownloader.__init__ one_no_hd = ([], inl AttributeError).
Proof.
  split.
  - apply (proj1 (playlist_init_outcome partly_private)). discriminate.
  - apply (proj2 (proj2 (playlist_init_outcome one_no_hd))); [reflexivity |].
    left. left. reflexivity.
Defined.

Lemma size_label_unavailable_iff_none_run :
  VideoDownloader.get_video_size (VideoDownloader.build_select_dict no_hd) HD
  = ret "Unavailable".
Proof.
  apply (proj1 (size_label_unavailable_iff_none HD)
           (VideoDownloader.build_select_dict no_hd) None); reflexivity.
Defined.

Lemma get_playlist_size_of_stored_list_run :
  PlaylistDownloader.get_playlist_size
    (PlaylistDownloader.build_select_dict mixed_audio) AUDIO
  = ret "10.0 MB".
Proof.
  destruct (get_playlist_size_of_stored_list
              (PlaylistDownloader.build_select_dict mixed_audio) AUDIO
              [Some v360; Some v360]) as [_ Hlabel]; [reflexivity |].
  apply (Hlabel [v360; v360]). reflexivity.
Defined.

Lemma download_with_unknown_option_raises_key_error_run :
  PlaylistDownloader.download fs0
    (PlaylistDownloader.mk three (PlaylistDownloader.build_select_dict three) "/home/u")
    FULL_HD
  = ([], inl KeyError).
Proof.
  assert (~ In FULL_HD [HD; LD; AUDIO]) as Hnew
    by (simpl; intros [H | [H | [H | []]]]; discriminate).
  apply (proj1 (download_with_unknown_option_raises_key_error fs0 FULL_HD "/home/u" Hnew)).
Defined.

Lemma playlist_download_stops_at_first_unresolved_item_run :
  transferred
    (trace (PlaylistDownloader.download fs0
              (PlaylistDownloader.mk mixed_audio
                 (PlaylistDownloader.build_select_dict mixed_audio) "/home/u") AUDIO))
  = [a128].
Proof.
  apply (playlist_download_stops_at_first_unresolved_item fs0
           (PlaylistDownloader.mk mixed_audio
              (PlaylistDownloader.build_select_dict mixed_audio) "/home/u")
           AUDIO [Some v360; Some v360] [full] [] no_audio [a128]);
    [reflexivity | discriminate | reflexivity | reflexivity | reflexivity].
Defined.


Lemma download_output_directory_run :
  "/home/u/Single" = rename_dir fs0 "/home/u" (remove_forbidden_characters "Single").
Proof.
  apply (proj1 (download_output_directory fs0 LD v360 "/home/u/Single" "Intro part 13.mp4")
           (PlaylistDownloader.mk one_full
              (PlaylistDownloader.build_select_dict one_full) "/home/u")).
  left. reflexivity.
Defined.

Lemma playlist_download_resets_display_run :
  render (trace (PlaylistDownloader.download fs0
                   (PlaylistDownloader.mk three
                      (PlaylistDownloader.build_select_dict three) "/home/u") LD)) ∅
    !! "-DOWNLOADPROGRESS-" = Some (VInt 0).
Proof.
  apply (playlist_download_resets_display fs0
           (PlaylistDownloader.mk three
              (PlaylistDownloader.build_select_dict three) "/home/u")
           LD [Some v360; Some v360; Some v360] ∅);
    [reflexivity | discriminate | reflexivity].
Defined.


Lemma progress_check_raises_on_empty_stream_run :
  VideoDownloader.__progress_check (Stream.mk 18 (Some "360p") "video" "mp4" true None 0) [] 0
  = ([], inl ZeroDivisionError).
Proof. apply progress_check_raises_on_empty_stream. reflexivity. Defined.


(** The session of [click_ld_then_close] on the video window: the 360p
    stream is transferred into the chosen folder, then the window is
    closed. *)
Example video_session :
  VideoWindow.create_window video_links opened_video click_ld_then_close
  = ([ Core (StreamDownload v360 "/home/u" "Intro part 13.mp4"); WindowClose ],
     inr (Closed (VideoWindow.set_folder opened_video "/home/u"))).
Proof. vm_compute. reflexivity. Qed.

Lemma playlist_bar_stays_within_maximum_run :
  0 <= 3 <= Playlist.length three.
Proof.
  apply (playlist_bar_stays_within_maximum fs0 three "/home/u" LD 3).
  vm_compute. auto.
Defined.

End MoreRuns.
